(** * Version lifecycle of dashboards: a model of [DashboardService]

    The service of [spaceone/dashboard/service/dashboard_service.py] is
    embedded as state-passing functions over a store that holds the
    [dashboards] collection and the [dashboard_versions] collection.
    A Python [dict] whose keys are open (settings, variables, ...) is a
    [gmap string Value]; the request dict [params], whose keys are the ones
    the docstrings list, is a record of optional fields, and the keys that
    [check_required] enforces are its mandatory fields. Where a record
    leaves a required key optional, [user_id] in the [params] of [create]
    and [query] in the [params] of [stat], the operation makes the check
    itself and raises [ERROR_REQUIRED_PARAMETER].

    The two managers the service calls are modelled from the specification
    of the record store and of the version store. None of the modelled
    operations fails after its first write, so the rollbacks a transaction
    registers never run here. The decorators that turn [params] into filter
    clauses run before a method's body; the bodies are modelled for every
    [params] they can be given. *)

From Stdlib Require Import ZArith.
From stdpp Require Import base strings gmap list infinite.

Set Warnings "-clear-no-such-hyp".

(** ** JSON-like values held by the free-form fields

    Numbers are integers; [True] and [False] are the numbers 1 and 0, which
    is what Python's [==] takes them for. *)

#[warnings="-register-all"]
Inductive Value : Type :=
  | VNull
  | VNum (n : Z)
  | VStr (s : string)
  | VList (l : list Value)
  | VDict (m : gmap string Value).

(** Python's [==] on these values is structural; on dicts it ignores the
    insertion order, which is the extensional equality of [gmap]. *)
Fixpoint Value_eq_dec (x y : Value) {struct x} : Decision (x = y).
Proof.
  refine (
    match x, y with
    | VNull, VNull => left _
    | VNum a, VNum b => cast_if (decide (a = b))
    | VStr a, VStr b => cast_if (decide (a = b))
    | VList a, VList b => cast_if (@list_eq_dec _ Value_eq_dec a b)
    | VDict a, VDict b => cast_if (@gmap_eq_dec _ _ _ _ Value_eq_dec a b)
    | _, _ => right _
    end); abstract congruence.
Defined.

#[global] Instance Value_eq : EqDecision Value := Value_eq_dec.

(** Truth value of a Python list, dict and str: empty is false. *)
Definition list_truth {A} (l : list A) : bool :=
  match l with [] => false | _ :: _ => true end.

Definition dict_truth (m : gmap string Value) : bool :=
  bool_decide (m ≠ ∅).

Definition str_truth (s : string) : bool :=
  match s with EmptyString => false | String _ _ => true end.

(** [None], [False] and [True] as the result of a function that may fall
    off its end. *)
Definition option_truth (r : option bool) : bool :=
  match r with Some true => true | _ => false end.

(** ** Documents *)

Module Dashboard.
Record t := mk {
  dashboard_id : string;
  name : string;
  dashboard_type : string;
  layouts : list Value;
  variables : gmap string Value;
  settings : option (gmap string Value);
  variables_schema : gmap string Value;
  labels : list string;
  tags : gmap string Value;
  viewers : string;
  version : Z;
  user_id : option string;
  domain_id : string
}.

#[global] Instance eq_dec : EqDecision t.
Proof. solve_decision. Defined.

Definition set_version (z : Z) (d : t) : t :=
  mk (dashboard_id d) (name d) (dashboard_type d) (layouts d) (variables d)
     (settings d) (variables_schema d) (labels d) (tags d) (viewers d)
     z (user_id d) (domain_id d).
End Dashboard.

(** [model/dashboard_version_model.py]; [created_at] is left out. *)
Module DashboardVersion.
Record t := mk {
  dashboard_id : string;
  version : Z;
  layouts : list Value;
  variables : gmap string Value;
  settings : gmap string Value;
  variables_schema : gmap string Value;
  domain_id : string
}.

#[global] Instance eq_dec : EqDecision t.
Proof. solve_decision. Defined.
End DashboardVersion.

(** ** Requests *)

(** One clause [{"k": .., "v": .., "o": ..}] of a query filter. *)
Module Filter.
Record t := mk { k : string; v : Value; o : string }.

#[global] Instance eq_dec : EqDecision t.
Proof. solve_decision. Defined.
End Filter.

(** A query dict: the [filter] key, and every other key it carries. *)
Module Query.
Record t := mk {
  filter : option (list Filter.t);
  rest : gmap string Value
}.

Definition empty : t := mk None ∅.

Definition set_filter (f : list Filter.t) (q : t) : t := mk (Some f) (rest q).
End Query.

(** The [params] dict of the operations that address one dashboard.
    [dashboard_id] and [domain_id] are enforced by [check_required]; an
    optional key that is absent is [None]. *)
Module Params.
Record t := mk {
  dashboard_id : string;
  domain_id : string;
  version : option Z;
  name : option string;
  layouts : option (list Value);
  variables : option (gmap string Value);
  settings : option (gmap string Value);
  variables_schema : option (gmap string Value);
  labels : option (list string);
  tags : option (gmap string Value);
  only : option (list string);
  query : option Query.t
}.

Definition set_name (x : string) (p : t) : t :=
  mk (dashboard_id p) (domain_id p) (version p) (Some x) (layouts p)
     (variables p) (settings p) (variables_schema p) (labels p) (tags p)
     (only p) (query p).

Definition set_settings (x : gmap string Value) (p : t) : t :=
  mk (dashboard_id p) (domain_id p) (version p) (name p) (layouts p)
     (variables p) (Some x) (variables_schema p) (labels p) (tags p)
     (only p) (query p).

(** [params["layouts"] = ..; params["variables"] = ..;
    params["variables_schema"] = ..] *)
Definition set_version_fields (l : list Value) (v s : gmap string Value)
    (p : t) : t :=
  mk (dashboard_id p) (domain_id p) (version p) (name p) (Some l)
     (Some v) (settings p) (Some s) (labels p) (tags p) (only p)
     (query p).

Definition key {A} (k : string) (o : option A) : list string :=
  match o with Some _ => [k] | None => [] end.

(** Iteration over the dict: the keys that are present. *)
Definition keys (p : t) : list string :=
  ["dashboard_id"; "domain_id"] ++ key "version" (version p)
    ++ key "name" (name p) ++ key "layouts" (layouts p)
    ++ key "variables" (variables p) ++ key "settings" (settings p)
    ++ key "variables_schema" (variables_schema p)
    ++ key "labels" (labels p) ++ key "tags" (tags p)
    ++ key "only" (only p) ++ key "query" (query p).
End Params.

(** The [params] of [create]: no [dashboard_id] yet. *)
Module CreateParams.
Record t := mk {
  name : string;
  dashboard_type : string;
  layouts : option (list Value);
  variables : option (gmap string Value);
  settings : option (gmap string Value);
  variables_schema : option (gmap string Value);
  labels : option (list string);
  tags : option (gmap string Value);
  viewers : string;
  user_id : option string;
  domain_id : string
}.

Definition keys (p : t) : list string :=
  ["name"; "dashboard_type"; "viewers"; "user_id"; "domain_id"]
    ++ Params.key "layouts" (layouts p)
    ++ Params.key "variables" (variables p)
    ++ Params.key "settings" (settings p)
    ++ Params.key "variables_schema" (variables_schema p)
    ++ Params.key "labels" (labels p) ++ Params.key "tags" (tags p).
End CreateParams.

(** The [params] of [delete_version], [revert_version] and [get_version]:
    [check_required] also enforces [version]. *)
Module VersionParams.
Record t := mk {
  dashboard_id : string;
  version : Z;
  domain_id : string;
  only : option (list string)
}.

(** The same dict seen as a patch, before any key is added to it. *)
Definition to_params (p : t) : Params.t :=
  Params.mk (dashboard_id p) (domain_id p) (Some (version p)) None None
    None None None None None (only p) None.
End VersionParams.

Module ListParams.
Record t := mk {
  domain_id : string;
  query : option Query.t
}.
End ListParams.

(** ** Errors, store and the monad of an operation *)

Inductive Error : Type :=
  | ERROR_NOT_FOUND
  | ERROR_PERMISSION_DENIED
  | ERROR_LATEST_VERSION (version : Z)
  | ERROR_REQUIRED_PARAMETER (key : string).

#[global] Instance Error_eq_dec : EqDecision Error.
Proof. solve_decision. Defined.

Inductive Result (A : Type) : Type :=
  | Ok (a : A)
  | Raise (e : Error).
Arguments Ok {A} a.
Arguments Raise {A} e.

Record Store := mkStore {
  dashboards : gmap string Dashboard.t;
  dashboard_versions : list DashboardVersion.t
}.

Definition set_dashboards (m : gmap string Dashboard.t) (s : Store) : Store :=
  mkStore m (dashboard_versions s).

Definition set_dashboard_versions (l : list DashboardVersion.t) (s : Store)
    : Store :=
  mkStore (dashboards s) l.

(** A computation reads and writes the store and either returns or raises;
    the store it leaves behind is kept in both cases. *)
Definition M (A : Type) : Type := Store → Result A * Store.

#[global] Instance M_ret : MRet M := λ A a s, (Ok a, s).

#[global] Instance M_bind : MBind M := λ A B f m s,
  match m s with
  | (Ok a, s') => f a s'
  | (Raise e, s') => (Raise e, s')
  end.

Definition raise {A} (e : Error) : M A := λ s, (Raise e, s).

Definition gets {A} (f : Store → A) : M A := λ s, (Ok (f s), s).

(** Modelled from the spec: the decorator [check_required] is not among
    the sources. A missing required input field is a validation error,
    raised before the operation does anything; a key whose value is [None]
    counts as missing. *)
Definition check_required {A} (key : string) (value : option A) : M A :=
  match value with
  | Some a => mret a
  | None => raise (ERROR_REQUIRED_PARAMETER key)
  end.

Definition modify (f : Store → Store) : M unit := λ s, (Ok tt, f s).

(** ** The document store's query language

    The [query] and [stat] calls of a model belong to the persistence
    layer; the service only hands a query over. *)
Class DocumentStore := {
  query_dashboards :
    Query.t → gmap string Dashboard.t → list Dashboard.t * nat;
  stat_dashboards : Query.t → gmap string Dashboard.t → list Value;
  query_versions :
    Query.t → list DashboardVersion.t → list DashboardVersion.t * nat
}.

(** ** DashboardManager *)

Module DashboardManager.

(** Modelled from the spec: the body of [create_domain_dashboard] is not
    among the sources. It persists a new record under an identifier no
    record has yet; [version] is zero until the first version-worthy
    write, and a field the caller leaves out takes the empty default. *)
Definition create_domain_dashboard (params : CreateParams.t)
    : M Dashboard.t := λ s,
  let dashboard_vo :=
    Dashboard.mk (fresh (dom (dashboards s)))
      (CreateParams.name params) (CreateParams.dashboard_type params)
      (default [] (CreateParams.layouts params))
      (default ∅ (CreateParams.variables params))
      (CreateParams.settings params)
      (default ∅ (CreateParams.variables_schema params))
      (default [] (CreateParams.labels params))
      (default ∅ (CreateParams.tags params))
      (CreateParams.viewers params) 0
      (CreateParams.user_id params) (CreateParams.domain_id params) in
  (Ok dashboard_vo,
   set_dashboards
     (<[Dashboard.dashboard_id dashboard_vo := dashboard_vo]> (dashboards s))
     s).

(** Modelled from the spec: the body of [get_domain_dashboard] is not
    among the sources. [get(dashboard_id, domain_id, projection?)] gives
    the record with these two field values or fails with [NotFound]; the
    spec gives the projection no effect on the fields the service reads. *)
Definition get_domain_dashboard (dashboard_id domain_id : string)
    (only : option (list string)) : M Dashboard.t := λ s,
  match dashboards s !! dashboard_id with
  | Some dashboard_vo =>
      if decide (Dashboard.dashboard_id dashboard_vo = dashboard_id
                 ∧ Dashboard.domain_id dashboard_vo = domain_id)
      then (Ok dashboard_vo, s)
      else (Raise ERROR_NOT_FOUND, s)
  | None => (Raise ERROR_NOT_FOUND, s)
  end.

(** Modelled from the spec: the body of [increase_version] is not among
    the sources. It increments [record.version] by 1 and persists; the
    caller's [dashboard_vo] object is the one updated, so the updated
    record is handed back. *)
Definition increase_version (dashboard_vo : Dashboard.t) : M Dashboard.t :=
  let vo := Dashboard.set_version (Dashboard.version dashboard_vo + 1)
              dashboard_vo in
  modify (λ s, set_dashboards
                 (<[Dashboard.dashboard_id vo := vo]> (dashboards s)) s) ;;
  mret vo.

(** Modelled from the spec: which keys of a patch the record accepts is
    declared by the [Dashboard] model, not among the sources. The patch
    sets the fields the [update] docstring lists; identity, ownership and
    [version] (changed by [increase_version] only) are not patched. *)
Definition patch (params : Params.t) (dashboard_vo : Dashboard.t)
    : Dashboard.t :=
  Dashboard.mk (Dashboard.dashboard_id dashboard_vo)
    (default (Dashboard.name dashboard_vo) (Params.name params))
    (Dashboard.dashboard_type dashboard_vo)
    (default (Dashboard.layouts dashboard_vo) (Params.layouts params))
    (default (Dashboard.variables dashboard_vo) (Params.variables params))
    (match Params.settings params with
     | Some m => Some m
     | None => Dashboard.settings dashboard_vo
     end)
    (default (Dashboard.variables_schema dashboard_vo)
       (Params.variables_schema params))
    (default (Dashboard.labels dashboard_vo) (Params.labels params))
    (default (Dashboard.tags dashboard_vo) (Params.tags params))
    (Dashboard.viewers dashboard_vo) (Dashboard.version dashboard_vo)
    (Dashboard.user_id dashboard_vo) (Dashboard.domain_id dashboard_vo).

(** Modelled from the spec: the body of [update_domain_dashboard_by_vo]
    is not among the sources. It applies the partial field patch to the
    record and returns the updated record. *)
Definition update_domain_dashboard_by_vo (params : Params.t)
    (dashboard_vo : Dashboard.t) : M Dashboard.t :=
  let vo := patch params dashboard_vo in
  modify (λ s, set_dashboards
                 (<[Dashboard.dashboard_id vo := vo]> (dashboards s)) s) ;;
  mret vo.

(** Modelled from the spec: the body of [delete_by_domain_dashboard_vo]
    is not among the sources. It removes the record permanently. *)
Definition delete_by_domain_dashboard_vo (dashboard_vo : Dashboard.t)
    : M unit :=
  modify (λ s, set_dashboards
                 (delete (Dashboard.dashboard_id dashboard_vo)
                    (dashboards s)) s).

(** Modelled from the spec: [list] and [stat] pass the query through to
    the document store. *)
Definition list_domain_dashboards `{DocumentStore} (query : Query.t)
    : M (list Dashboard.t * nat) :=
  gets (λ s, query_dashboards query (dashboards s)).

(** Modelled from the spec: [stat(aggregation_spec)], the same
    passthrough. *)
Definition stat_domain_dashboards `{DocumentStore} (query : Query.t)
    : M (list Value) :=
  gets (λ s, stat_dashboards query (dashboards s)).

End DashboardManager.

(** ** DashboardVersionManager *)

Module DashboardVersionManager.

(** Modelled from the spec: the body of
    [create_version_by_domain_dashboard_vo] is not among the sources. The
    snapshot takes [record.version] and the three version-bearing fields
    of the patch, each falling back to the record's value when the patch
    lacks it; [settings] keeps the model's default. The three fields are
    passed one by one because [create] and [update] have different
    [params]. *)
Definition create_version_by_domain_dashboard_vo
    (dashboard_vo : Dashboard.t) (layouts : option (list Value))
    (variables variables_schema : option (gmap string Value))
    : M DashboardVersion.t :=
  let version_vo :=
    DashboardVersion.mk (Dashboard.dashboard_id dashboard_vo)
      (Dashboard.version dashboard_vo)
      (default (Dashboard.layouts dashboard_vo) layouts)
      (default (Dashboard.variables dashboard_vo) variables)
      ∅
      (default (Dashboard.variables_schema dashboard_vo) variables_schema)
      (Dashboard.domain_id dashboard_vo) in
  modify (λ s, set_dashboard_versions
                 (dashboard_versions s ++ [version_vo]) s) ;;
  mret version_vo.

(** The composite key of a snapshot. *)
Definition is_version (dashboard_id : string) (version : Z)
    (domain_id : string) (version_vo : DashboardVersion.t) : bool :=
  bool_decide (DashboardVersion.dashboard_id version_vo = dashboard_id
               ∧ DashboardVersion.version version_vo = version
               ∧ DashboardVersion.domain_id version_vo = domain_id).

(** Modelled from the spec: the body of [get_version] is not among the
    sources. [get(dashboard_id, version, domain_id, projection?)] gives
    the snapshot with this key or fails with [NotFound]. *)
Definition get_version (dashboard_id : string) (version : Z)
    (domain_id : string) (only : option (list string))
    : M DashboardVersion.t := λ s,
  match List.find (is_version dashboard_id version domain_id)
          (dashboard_versions s) with
  | Some version_vo => (Ok version_vo, s)
  | None => (Raise ERROR_NOT_FOUND, s)
  end.

(** Modelled from the spec: [filter_versions(dashboard_id=..)], the
    snapshots of one dashboard. *)
Definition filter_versions (dashboard_id : string)
    : M (list DashboardVersion.t) :=
  gets (λ s, filter (λ vo, DashboardVersion.dashboard_id vo = dashboard_id)
               (dashboard_versions s)).

(** Modelled from the spec: [delete_all(snapshots)], unconditional. *)
Definition delete_versions_by_domain_dashboard_version_vos
    (vos : list DashboardVersion.t) : M unit :=
  modify (λ s, set_dashboard_versions
                 (filter (λ vo, vo ∉ vos) (dashboard_versions s)) s).

(** Modelled from the spec: [delete_one(dashboard_id, version,
    domain_id)] fails with [LatestVersionError] if [version] equals the
    owning record's current version, and with [NotFound] if there is no
    such snapshot. *)
Definition delete_version (dashboard_id : string) (version : Z)
    (domain_id : string) : M unit := λ s,
  match dashboards s !! dashboard_id with
  | Some dashboard_vo =>
      if decide (Dashboard.version dashboard_vo = version)
      then (Raise (ERROR_LATEST_VERSION version), s)
      else
        (version_vo ← get_version dashboard_id version domain_id None;
         delete_versions_by_domain_dashboard_version_vos [version_vo]) s
  | None =>
      (version_vo ← get_version dashboard_id version domain_id None;
       delete_versions_by_domain_dashboard_version_vos [version_vo]) s
  end.

(** Modelled from the spec: [list(filter)] passes the query through to
    the document store. *)
Definition list_versions `{DocumentStore} (query : Query.t)
    : M (list DashboardVersion.t * nat) :=
  gets (λ s, query_versions query (dashboard_versions s)).

End DashboardVersionManager.

(** ** DashboardService *)

Module DashboardService.

(** [any(..)] over an iterable of keys. *)
Definition any (keys : list string) : bool := existsb str_truth keys.

(** The value [self.transaction.get_meta("user_id")] as a filter operand. *)
Definition user_value (user_id : option string) : Value :=
  match user_id with Some u => VStr u | None => VNull end.

(** The test every operation on one dashboard makes before it goes on:
    [viewers == "PRIVATE" and user_id != get_meta("user_id")]. *)
Definition private_of_other (dashboard_vo : Dashboard.t)
    (user_id : option string) : bool :=
  String.eqb (Dashboard.viewers dashboard_vo) "PRIVATE"
  && bool_decide (Dashboard.user_id dashboard_vo ≠ user_id).

Definition _has_version_key_in_params (dashboard_vo : Dashboard.t)
    (params : Params.t) (version_change_keys : list string)
    : option bool :=
  let layouts := Dashboard.layouts dashboard_vo in
  let variables := Dashboard.variables dashboard_vo in
  let variables_schema := Dashboard.variables_schema dashboard_vo in
  if any (filter (λ key, key ∈ version_change_keys) (Params.keys params))
  then
    if match Params.layouts params with
       | Some layouts_from_params =>
           list_truth layouts_from_params
           && bool_decide (layouts ≠ layouts_from_params)
       | None => false
       end
    then Some true
    else if match Params.variables params with
            | Some options_from_params =>
                dict_truth options_from_params
                && bool_decide (variables ≠ options_from_params)
            | None => false
            end
    then Some true
    else if match Params.variables_schema params with
            | Some schema_from_params =>
                dict_truth schema_from_params
                && bool_decide (schema_from_params ≠ variables_schema)
            | None => false
            end
    then Some true
    else Some false
  else None.

Definition _merge_settings (old_settings : option (gmap string Value))
    (new_settings : gmap string Value) : gmap string Value :=
  match old_settings with
  | Some settings =>
      (* [settings] is the deep copy; [update] lets the new keys win *)
      if dict_truth settings then new_settings ∪ settings
      else new_settings
  | None => new_settings
  end.

(** Line 30 requires [name], [dashboard_type], [user_id] and [domain_id];
    the record of [params] makes all but [user_id] mandatory. *)
Definition create (params : CreateParams.t) : M Dashboard.t :=
  check_required "user_id" (CreateParams.user_id params) ;;
  dashboard_vo ← DashboardManager.create_domain_dashboard params;
  let version_keys := ["layouts"; "variables"; "variables_schema"] in
  (if any (filter (λ key, key ∈ CreateParams.keys params) version_keys)
   then DashboardVersionManager.create_version_by_domain_dashboard_vo
          dashboard_vo (CreateParams.layouts params)
          (CreateParams.variables params)
          (CreateParams.variables_schema params) ;; mret tt
   else mret tt) ;;
  mret dashboard_vo.

Definition update (user_id : option string) (params : Params.t)
    : M Dashboard.t :=
  let dashboard_id := Params.dashboard_id params in
  let domain_id := Params.domain_id params in
  dashboard_vo ← DashboardManager.get_domain_dashboard
                   dashboard_id domain_id None;
  let params :=
    match Params.name params with
    | None => Params.set_name (Dashboard.name dashboard_vo) params
    | Some _ => params
    end in
  if private_of_other dashboard_vo user_id
  then raise ERROR_PERMISSION_DENIED
  else
    let params :=
      match Params.settings params with
      | Some new_settings =>
          Params.set_settings
            (_merge_settings (Dashboard.settings dashboard_vo) new_settings)
            params
      | None => params
      end in
    let version_change_keys :=
      ["layouts"; "variables"; "variables_schema"] in
    dashboard_vo ←
      (if option_truth (_has_version_key_in_params dashboard_vo params
                          version_change_keys)
       then
         dashboard_vo ← DashboardManager.increase_version dashboard_vo;
         DashboardVersionManager.create_version_by_domain_dashboard_vo
           dashboard_vo (Params.layouts params) (Params.variables params)
           (Params.variables_schema params) ;;
         mret dashboard_vo
       else mret dashboard_vo);
    DashboardManager.update_domain_dashboard_by_vo params dashboard_vo.

Definition delete (user_id : option string) (params : Params.t)
    : M unit :=
  dashboard_vo ← DashboardManager.get_domain_dashboard
                   (Params.dashboard_id params) (Params.domain_id params)
                   None;
  if private_of_other dashboard_vo user_id
  then raise ERROR_PERMISSION_DENIED
  else
    domain_dashboard_version_vos ←
      DashboardVersionManager.filter_versions
        (Dashboard.dashboard_id dashboard_vo);
    (if list_truth domain_dashboard_version_vos
     then DashboardVersionManager
            .delete_versions_by_domain_dashboard_version_vos
            domain_dashboard_version_vos
     else mret tt) ;;
    DashboardManager.delete_by_domain_dashboard_vo dashboard_vo.

Definition get (user_id : option string) (params : Params.t)
    : M Dashboard.t :=
  let dashboard_id := Params.dashboard_id params in
  let domain_id := Params.domain_id params in
  dashboard_vo ← DashboardManager.get_domain_dashboard
                   dashboard_id domain_id (Params.only params);
  if private_of_other dashboard_vo user_id
  then raise ERROR_PERMISSION_DENIED
  else mret dashboard_vo.

Definition delete_version (user_id : option string)
    (params : VersionParams.t) : M unit :=
  let dashboard_id := VersionParams.dashboard_id params in
  let version := VersionParams.version params in
  let domain_id := VersionParams.domain_id params in
  dashboard_vo ← DashboardManager.get_domain_dashboard
                   dashboard_id domain_id None;
  if private_of_other dashboard_vo user_id
  then raise ERROR_PERMISSION_DENIED
  else
    let current_version := Dashboard.version dashboard_vo in
    if bool_decide (current_version = version)
    then raise (ERROR_LATEST_VERSION version)
    else DashboardVersionManager.delete_version
           dashboard_id version domain_id.

Definition revert_version (user_id : option string)
    (params : VersionParams.t) : M Dashboard.t :=
  let dashboard_id := VersionParams.dashboard_id params in
  let version := VersionParams.version params in
  let domain_id := VersionParams.domain_id params in
  dashboard_vo ← DashboardManager.get_domain_dashboard
                   dashboard_id domain_id None;
  if private_of_other dashboard_vo user_id
  then raise ERROR_PERMISSION_DENIED
  else
    version_vo ← DashboardVersionManager.get_version
                   dashboard_id version domain_id None;
    let params :=
      Params.set_version_fields (DashboardVersion.layouts version_vo)
        (DashboardVersion.variables version_vo)
        (DashboardVersion.variables_schema version_vo)
        (VersionParams.to_params params) in
    dashboard_vo ← DashboardManager.increase_version dashboard_vo;
    DashboardVersionManager.create_version_by_domain_dashboard_vo
      dashboard_vo (Params.layouts params) (Params.variables params)
      (Params.variables_schema params) ;;
    DashboardManager.update_domain_dashboard_by_vo params dashboard_vo.

Definition get_version (user_id : option string)
    (params : VersionParams.t) : M DashboardVersion.t :=
  let dashboard_id := VersionParams.dashboard_id params in
  let version := VersionParams.version params in
  let domain_id := VersionParams.domain_id params in
  dashboard_vo ← DashboardManager.get_domain_dashboard
                   dashboard_id domain_id None;
  if private_of_other dashboard_vo user_id
  then raise ERROR_PERMISSION_DENIED
  else DashboardVersionManager.get_version
         dashboard_id version domain_id (VersionParams.only params).

Definition list_versions `{DocumentStore} (user_id : option string)
    (params : Params.t) : M (list DashboardVersion.t * nat * Z) :=
  let dashboard_id := Params.dashboard_id params in
  let domain_id := Params.domain_id params in
  let query := default Query.empty (Params.query params) in
  '(domain_dashboard_version_vos, total_count) ←
    DashboardVersionManager.list_versions query;
  dashboard_vo ← DashboardManager.get_domain_dashboard
                   dashboard_id domain_id None;
  if private_of_other dashboard_vo user_id
  then raise ERROR_PERMISSION_DENIED
  else mret (domain_dashboard_version_vos, total_count,
             Dashboard.version dashboard_vo).

(** Lines 371-380 and 403-412: the query that [list] and [stat] hand to
    the manager. *)
Definition scoped_query (user_id : option string) (params : ListParams.t)
    : Query.t :=
  let query := default Query.empty (ListParams.query params) in
  let query := Query.set_filter (default [] (Query.filter query)) query in
  Query.set_filter
    (default [] (Query.filter query)
       ++ [Filter.mk "user_id" (VList [user_value user_id; VNull]) "in"])
    query.

(** Line 388 requires [query] and [domain_id]; [list] requires
    [domain_id] only, so the record they share leaves [query] optional. *)
Definition stat `{DocumentStore} (user_id : option string)
    (params : ListParams.t) : M (list Value) :=
  check_required "query" (ListParams.query params) ;;
  DashboardManager.stat_domain_dashboards (scoped_query user_id params).

Definition list `{DocumentStore} (user_id : option string)
    (params : ListParams.t) : M (list Dashboard.t * nat) :=
  DashboardManager.list_domain_dashboards (scoped_query user_id params).

End DashboardService.

(** ** What the properties are stated with *)

(** [dashboard_vo] is the record that [dashboard_id] and [domain_id]
    address in [s]. *)
Definition has_dashboard (s : Store) (dashboard_id domain_id : string)
    (dashboard_vo : Dashboard.t) : Prop :=
  DashboardManager.get_domain_dashboard dashboard_id domain_id None s
  = (Ok dashboard_vo, s).

(** [params] as [update] has rewritten it when it reaches the version test:
    [name] filled in, [settings] merged. *)
Definition update_params (dashboard_vo : Dashboard.t) (params : Params.t)
    : Params.t :=
  let params :=
    match Params.name params with
    | None => Params.set_name (Dashboard.name dashboard_vo) params
    | Some _ => params
    end in
  match Params.settings params with
  | Some new_settings =>
      Params.set_settings
        (DashboardService._merge_settings (Dashboard.settings dashboard_vo)
           new_settings) params
  | None => params
  end.

(** The patch carries a version-bearing field whose new value differs from
    the record's. *)
Definition changes_version_field (dashboard_vo : Dashboard.t)
    (params : Params.t) : Prop :=
  (∃ l, Params.layouts params = Some l ∧ l ≠ Dashboard.layouts dashboard_vo)
  ∨ (∃ m, Params.variables params = Some m
          ∧ m ≠ Dashboard.variables dashboard_vo)
  ∨ (∃ m, Params.variables_schema params = Some m
          ∧ m ≠ Dashboard.variables_schema dashboard_vo).

(** The same, for a new value that is not empty. *)
Definition sets_version_field (dashboard_vo : Dashboard.t)
    (params : Params.t) : Prop :=
  (∃ l, Params.layouts params = Some l ∧ l ≠ []
        ∧ l ≠ Dashboard.layouts dashboard_vo)
  ∨ (∃ m, Params.variables params = Some m ∧ m ≠ ∅
          ∧ m ≠ Dashboard.variables dashboard_vo)
  ∨ (∃ m, Params.variables_schema params = Some m ∧ m ≠ ∅
          ∧ m ≠ Dashboard.variables_schema dashboard_vo).

(** Every version-bearing field of the patch equals the record's value. *)
Definition keeps_version_fields (dashboard_vo : Dashboard.t)
    (params : Params.t) : Prop :=
  (∀ l, Params.layouts params = Some l → l = Dashboard.layouts dashboard_vo)
  ∧ (∀ m, Params.variables params = Some m
          → m = Dashboard.variables dashboard_vo)
  ∧ (∀ m, Params.variables_schema params = Some m
          → m = Dashboard.variables_schema dashboard_vo).

(** The patch has a version-bearing key. *)
Definition has_version_key (params : Params.t) : Prop :=
  is_Some (Params.layouts params) ∨ is_Some (Params.variables params)
  ∨ is_Some (Params.variables_schema params).

(** Every version-bearing field of the patch is empty. *)
Definition empty_version_fields (params : Params.t) : Prop :=
  (∀ l, Params.layouts params = Some l → l = [])
  ∧ (∀ m, Params.variables params = Some m → m = ∅)
  ∧ (∀ m, Params.variables_schema params = Some m → m = ∅).

Definition version_change_keys : list string :=
  ["layouts"; "variables"; "variables_schema"].

(** The version counter of the record stored under [dashboard_id]. *)
Definition version_in (s : Store) (dashboard_id : string) : option Z :=
  Dashboard.version <$> dashboards s !! dashboard_id.

(** Runs the store operations of a computation that has no test left. *)
Ltac run_store :=
  cbv [mbind M_bind mret M_ret raise gets modify
       DashboardManager.increase_version
       DashboardManager.update_domain_dashboard_by_vo
       DashboardManager.delete_by_domain_dashboard_vo
       DashboardVersionManager.create_version_by_domain_dashboard_vo
       DashboardVersionManager.filter_versions
       DashboardVersionManager.delete_versions_by_domain_dashboard_version_vos
       set_dashboards set_dashboard_versions];
  simpl.

(** The outcome is [ERROR_PERMISSION_DENIED]. *)
Definition denied {A} (r : Result A * Store) : Prop :=
  r.1 = Raise ERROR_PERMISSION_DENIED.

(** The settings the merge is tried on: [{a: 1, b: 2}], [{b: 3, c: 4}],
    [{a: 1, b: 3, c: 4}] and [{x: 1}]. *)
Definition settings_ab : gmap string Value :=
  {[ "a" := VNum 1; "b" := VNum 2 ]}.
Definition settings_bc : gmap string Value :=
  {[ "b" := VNum 3; "c" := VNum 4 ]}.
Definition settings_abc : gmap string Value :=
  {[ "a" := VNum 1; "b" := VNum 3; "c" := VNum 4 ]}.
Definition settings_x : gmap string Value := {[ "x" := VNum 1 ]}.

(** The ownership clause as the specification words it, written without
    the code's [user_value]: the [user_id] of a row is to be the caller's
    user id or null. For a caller that has a user id the first operand is
    that id as a string. *)
Definition ownership_filter (user_id : option string) : Filter.t :=
  Filter.mk "user_id"
    (VList [match user_id with
            | Some caller => VStr caller
            | None => VNull
            end; VNull])
    "in".

(** The filter clauses the caller's query brings. *)
Definition caller_filter (params : ListParams.t) : list Filter.t :=
  default [] (Query.filter (default Query.empty (ListParams.query params))).

(** Modelled from the spec: the clauses of a filter are composed by logical
    AND; what one clause means for a row is the document store's business
    and is left open as [clause_holds]. *)
Definition filter_matches (clause_holds : Filter.t → Dashboard.t → bool)
    (query : Query.t) (row : Dashboard.t) : bool :=
  forallb (λ clause, clause_holds clause row)
    (default [] (Query.filter query)).

(** A call of a service operation that keeps the record it addresses,
    with the caller's user id where the operation reads it. *)
Inductive Op : Type :=
  | OpCreate (params : CreateParams.t)
  | OpUpdate (user_id : option string) (params : Params.t)
  | OpRevertVersion (user_id : option string) (params : VersionParams.t)
  | OpDeleteVersion (user_id : option string) (params : VersionParams.t)
  | OpGet (user_id : option string) (params : Params.t)
  | OpGetVersion (user_id : option string) (params : VersionParams.t)
  | OpListVersions (user_id : option string) (params : Params.t)
  | OpList (user_id : option string) (params : ListParams.t)
  | OpStat (user_id : option string) (params : ListParams.t).

(** The store a call leaves behind, whether it returns or raises. *)
Definition exec `{DocumentStore} (op : Op) (s : Store) : Store :=
  match op with
  | OpCreate params => (DashboardService.create params s).2
  | OpUpdate user_id params => (DashboardService.update user_id params s).2
  | OpRevertVersion user_id params =>
      (DashboardService.revert_version user_id params s).2
  | OpDeleteVersion user_id params =>
      (DashboardService.delete_version user_id params s).2
  | OpGet user_id params => (DashboardService.get user_id params s).2
  | OpGetVersion user_id params =>
      (DashboardService.get_version user_id params s).2
  | OpListVersions user_id params =>
      (DashboardService.list_versions user_id params s).2
  | OpList user_id params => (DashboardService.list user_id params s).2
  | OpStat user_id params => (DashboardService.stat user_id params s).2
  end.

Definition exec_all `{DocumentStore} (ops : list Op) (s : Store) : Store :=
  fold_left (λ s op, exec op s) ops s.

Definition is_update_or_revert (op : Op) : bool :=
  match op with
  | OpUpdate _ _ | OpRevertVersion _ _ => true
  | _ => false
  end.

(** Every snapshot belongs to a stored record and does not exceed its
    version counter. *)
Definition snapshots_bounded (s : Store) : Prop :=
  ∀ version_vo, version_vo ∈ dashboard_versions s →
    ∃ dashboard_vo,
      dashboards s !! DashboardVersion.dashboard_id version_vo
      = Some dashboard_vo
      ∧ (DashboardVersion.version version_vo
         ≤ Dashboard.version dashboard_vo)%Z.

(** The stores the service can bring about from the empty one. The
    operations that only read are left out: they return the store they
    were given. *)
Inductive reachable : Store → Prop :=
  | reachable_empty : reachable (mkStore ∅ [])
  | reachable_create params s :
      reachable s → reachable (DashboardService.create params s).2
  | reachable_update user_id params s :
      reachable s → reachable (DashboardService.update user_id params s).2
  | reachable_delete user_id params s :
      reachable s → reachable (DashboardService.delete user_id params s).2
  | reachable_delete_version user_id params s :
      reachable s →
      reachable (DashboardService.delete_version user_id params s).2
  | reachable_revert_version user_id params s :
      reachable s →
      reachable (DashboardService.revert_version user_id params s).2.

(** Reads a field off a store or a document that is written out. *)
Ltac store_fields :=
  unfold set_dashboards, set_dashboard_versions;
  cbn [dashboards dashboard_versions DashboardVersion.dashboard_id
       DashboardVersion.version Dashboard.dashboard_id Dashboard.version
       Dashboard.set_version].

(** ** A small store to run the operations on *)

Module Sample.

(** A PRIVATE dashboard of user [u1], at version 3. *)
Definition dash1 : Dashboard.t :=
  Dashboard.mk "dash-1" "ops" "CUSTOM" [VStr "w1"] ∅ (Some settings_ab)
    ∅ [] ∅ "PRIVATE" 3 (Some "u1") "domain-1".

(** A PUBLIC dashboard without an owner, at version 1. *)
Definition dash2 : Dashboard.t :=
  Dashboard.mk "dash-2" "team" "CUSTOM" [VStr "w2"] ∅ None
    ∅ [] ∅ "PUBLIC" 1 None "domain-1".

Definition dash1_v2 : DashboardVersion.t :=
  DashboardVersion.mk "dash-1" 2 [VStr "w0"] ∅ ∅ ∅ "domain-1".

Definition dash1_v3 : DashboardVersion.t :=
  DashboardVersion.mk "dash-1" 3 [VStr "w1"] ∅ ∅ ∅ "domain-1".

Definition dash2_v1 : DashboardVersion.t :=
  DashboardVersion.mk "dash-2" 1 [VStr "w2"] ∅ ∅ ∅ "domain-1".

Definition store : Store :=
  mkStore {[ "dash-1" := dash1; "dash-2" := dash2 ]}
    [dash1_v2; dash1_v3; dash2_v1].

Definition params (dashboard_id : string) : Params.t :=
  Params.mk dashboard_id "domain-1" None None None None None None None
    None None None.

(** [{"layouts": []}] *)
Definition clear_layouts (dashboard_id : string) : Params.t :=
  Params.mk dashboard_id "domain-1" None None (Some []) None None None
    None None None None.

(** [{"layouts": ["w9"]}] *)
Definition new_layouts (dashboard_id : string) : Params.t :=
  Params.mk dashboard_id "domain-1" None None (Some [VStr "w9"]) None
    None None None None None None.

(** [{"layouts": ["w1"]}], what [dash1] has already. *)
Definition same_layouts : Params.t :=
  Params.mk "dash-1" "domain-1" None None (Some [VStr "w1"]) None None
    None None None None None.

(** [{"settings": {"b": 3, "c": 4}}] *)
Definition new_settings : Params.t :=
  Params.mk "dash-1" "domain-1" None None None None (Some settings_bc)
    None None None None None.

Definition vparams (dashboard_id : string) (version : Z)
    : VersionParams.t :=
  VersionParams.mk dashboard_id version "domain-1" None.

(** A store built by the service: a dashboard is created with layouts and
    then updated, which leaves it at version 1 with snapshots 0 and 1. *)
Definition created : CreateParams.t :=
  CreateParams.mk "new" "CUSTOM" (Some [VStr "w3"]) None None None None
    None "PRIVATE" (Some "u2") "domain-1".

Definition built : Store :=
  (DashboardService.update (Some "u2") (new_layouts "0")
     (DashboardService.create created (mkStore ∅ [])).2).2.

Definition built_dash : Dashboard.t :=
  Dashboard.mk "0" "new" "CUSTOM" [VStr "w9"] ∅ None ∅ [] ∅ "PRIVATE" 1
    (Some "u2") "domain-1".

Definition built_v1 : DashboardVersion.t :=
  DashboardVersion.mk "0" 1 [VStr "w9"] ∅ ∅ ∅ "domain-1".

(** A document store that ignores the query. *)
Definition document_store : DocumentStore :=
  {| query_dashboards _ m := ((map_to_list m).*2, size m);
     stat_dashboards _ _ := [];
     query_versions _ l := (l, length l) |}.

End Sample.

(** A run that creates, reads, updates, reverts and deletes a version. *)
Definition sample_run : list Op :=
  [ OpCreate Sample.created;
    OpGet (Some "u1") (Sample.params "dash-1");
    OpUpdate (Some "u1") (Sample.new_layouts "dash-1");
    OpList (Some "u2") (ListParams.mk "domain-1" None);
    OpUpdate (Some "u2") (Sample.new_layouts "dash-1");
    OpRevertVersion (Some "u1") (Sample.vparams "dash-1" 2);
    OpDeleteVersion (Some "u1") (Sample.vparams "dash-1" 3);
    OpUpdate (Some "u1") (Sample.clear_layouts "dash-1") ].

(** ** More of the service: what further properties are stated with *)

(** The [params] of [create] have a version-bearing key. *)
Definition create_has_version_key (params : CreateParams.t) : Prop :=
  is_Some (CreateParams.layouts params)
  ∨ is_Some (CreateParams.variables params)
  ∨ is_Some (CreateParams.variables_schema params).

(** No record is stored under [dashboard_id] in domain [domain_id]. *)
Definition no_dashboard (s : Store) (dashboard_id domain_id : string)
    : Prop :=
  ∀ dashboard_vo, dashboards s !! dashboard_id = Some dashboard_vo →
    Dashboard.domain_id dashboard_vo ≠ domain_id.

(** No snapshot has the key [(dashboard_id, version, domain_id)]. *)
Definition no_version (s : Store) (dashboard_id : string) (version : Z)
    (domain_id : string) : Prop :=
  ∀ version_vo, version_vo ∈ dashboard_versions s →
    DashboardVersionManager.is_version dashboard_id version domain_id
      version_vo = false.

(** A call of an operation that writes, with the caller's user id where
    the operation reads it. *)
Inductive Mutation : Type :=
  | MutCreate (params : CreateParams.t)
  | MutUpdate (user_id : option string) (params : Params.t)
  | MutDelete (user_id : option string) (params : Params.t)
  | MutDeleteVersion (user_id : option string) (params : VersionParams.t)
  | MutRevertVersion (user_id : option string) (params : VersionParams.t).

(** The store the call leaves behind, whether it returns or raises. *)
Definition mutate (m : Mutation) (s : Store) : Store :=
  match m with
  | MutCreate params => (DashboardService.create params s).2
  | MutUpdate user_id params =>
      (DashboardService.update user_id params s).2
  | MutDelete user_id params =>
      (DashboardService.delete user_id params s).2
  | MutDeleteVersion user_id params =>
      (DashboardService.delete_version user_id params s).2
  | MutRevertVersion user_id params =>
      (DashboardService.revert_version user_id params s).2
  end.

(** The dashboard the call is about; for [create], the id the new record
    is given. *)
Definition target (m : Mutation) (s : Store) : string :=
  match m with
  | MutCreate _ => fresh (dom (dashboards s))
  | MutUpdate _ params | MutDelete _ params => Params.dashboard_id params
  | MutDeleteVersion _ params | MutRevertVersion _ params =>
      VersionParams.dashboard_id params
  end.

Definition removes (m : Mutation) : bool :=
  match m with
  | MutDelete _ _ | MutDeleteVersion _ _ => true
  | _ => false
  end.

(** The five shapes of what a writing call does to the store: nothing; the
    record under [k] written at the version it had; the record written at a
    higher version together with a snapshot at that version; one snapshot
    of [k] removed; the record under [k] and all its snapshots removed. *)
Inductive effect (k : string) (s s' : Store) : Prop :=
  | effect_none : s' = s → effect k s s'
  | effect_write vo' :
      Dashboard.dashboard_id vo' = k →
      (∀ vo, dashboards s !! k = Some vo →
         Dashboard.version vo = Dashboard.version vo'
         ∧ Dashboard.domain_id vo = Dashboard.domain_id vo') →
      s' = mkStore (<[k := vo']> (dashboards s)) (dashboard_versions s) →
      effect k s s'
  | effect_version vo' version_vo :
      Dashboard.dashboard_id vo' = k →
      (∀ vo, dashboards s !! k = Some vo →
         (Dashboard.version vo < Dashboard.version vo')%Z
         ∧ Dashboard.domain_id vo = Dashboard.domain_id vo') →
      DashboardVersion.dashboard_id version_vo = k →
      DashboardVersion.version version_vo = Dashboard.version vo' →
      DashboardVersion.domain_id version_vo = Dashboard.domain_id vo' →
      s' = mkStore (<[k := vo']> (dashboards s))
             (dashboard_versions s ++ [version_vo]) →
      effect k s s'
  | effect_prune version_vo :
      DashboardVersion.dashboard_id version_vo = k →
      s' = mkStore (dashboards s)
             (filter (λ vo, vo ∉ [version_vo]) (dashboard_versions s)) →
      effect k s s'
  | effect_delete :
      s' = mkStore (delete k (dashboards s))
             (filter (λ vo, DashboardVersion.dashboard_id vo ≠ k)
                (dashboard_versions s)) →
      effect k s s'.

(** The key under which a snapshot is unique. *)
Definition snapshot_key (version_vo : DashboardVersion.t) : string * Z :=
  (DashboardVersion.dashboard_id version_vo,
   DashboardVersion.version version_vo).

(** Records are stored under their own id; every snapshot belongs to a
    stored record of its domain and does not exceed the record's version;
    no two snapshots have the same dashboard and version. *)
Definition store_consistent (s : Store) : Prop :=
  (∀ k dashboard_vo, dashboards s !! k = Some dashboard_vo →
     Dashboard.dashboard_id dashboard_vo = k)
  ∧ (∀ version_vo, version_vo ∈ dashboard_versions s →
       ∃ dashboard_vo,
         dashboards s !! DashboardVersion.dashboard_id version_vo
         = Some dashboard_vo
         ∧ (DashboardVersion.version version_vo
            ≤ Dashboard.version dashboard_vo)%Z
         ∧ DashboardVersion.domain_id version_vo
           = Dashboard.domain_id dashboard_vo)
  ∧ NoDup (snapshot_key <$> dashboard_versions s).

(** ** The version model's meta and [info/dashboard_version_info.py] *)

(** [meta["minimal_fields"]] of [model/dashboard_version_model.py]. *)
Definition minimal_fields : list string :=
  ["dashboard_id"; "version"; "domain_id"; "created_at"].

(** [utils.datetime_to_iso8601(vo.created_at)]: the snapshot record above
    leaves [created_at] out, so the string the info carries for it is
    given from outside. *)
Class CreatedAt := created_at_iso8601 : DashboardVersion.t → Value.

(** Truth value of an optional int: [None] and 0 are false. *)
Definition int_truth (z : option Z) : bool :=
  match z with Some z => negb (z =? 0)%Z | None => false end.

(** What the info function takes from modules that are not among the
    sources. The converters [change_struct_type] and
    [change_list_value_type] of [spaceone.core.pygrpc.message_type] build
    protobuf values and need not keep a number as it is; the generated
    constructor [dashboard_pb2.DashboardVersionInfo] raises on keyword
    arguments it does not accept, which is [None] here. *)
Class MessageType := {
  Message : Type;
  change_struct_type : gmap string Value → Value;
  change_list_value_type : list Value → Value;
  dashboard_pb2_DashboardVersionInfo : gmap string Value → option Message
}.

(** Lines 13-38: the dict [info] as it is when the constructor is called.
    [True] and [False] are the numbers 1 and 0 as everywhere here. *)
Definition DashboardVersionInfo_info `{CreatedAt} `{MessageType}
    (dashboard_version_vo : DashboardVersion.t) (minimal : bool)
    (latest_version : option Z) : gmap string Value :=
  let info : gmap string Value :=
    {[ "dashboard_id" :=
         VStr (DashboardVersion.dashboard_id dashboard_version_vo);
       "version" := VNum (DashboardVersion.version dashboard_version_vo);
       "created_at" := created_at_iso8601 dashboard_version_vo;
       "domain_id" :=
         VStr (DashboardVersion.domain_id dashboard_version_vo) ]} in
  let info :=
    if int_truth latest_version
    then
      if bool_decide
           (latest_version
            = Some (DashboardVersion.version dashboard_version_vo))
      then {[ "latest" := VNum 1 ]} ∪ info
      else {[ "latest" := VNum 0 ]} ∪ info
    else info in
  let info :=
    if negb minimal
    then
      {[ "layouts" :=
           if list_truth (DashboardVersion.layouts dashboard_version_vo)
           then change_list_value_type
                  (DashboardVersion.layouts dashboard_version_vo)
           else VNull;
         "variables" :=
           change_struct_type
             (DashboardVersion.variables dashboard_version_vo);
         "settings" :=
           change_struct_type
             (DashboardVersion.settings dashboard_version_vo);
         "variables_schema" :=
           change_struct_type
             (DashboardVersion.variables_schema
                dashboard_version_vo) ]} ∪ info
    else info in
  info.

(** Line 40: the message the constructor makes of [info], if it does. *)
Definition DashboardVersionInfo `{CreatedAt} `{MessageType}
    (dashboard_version_vo : DashboardVersion.t) (minimal : bool)
    (latest_version : option Z) : option Message :=
  dashboard_pb2_DashboardVersionInfo
    (DashboardVersionInfo_info dashboard_version_vo minimal latest_version).

(** The keys every info has, those of the [latest] flag and those of the
    content. *)
Definition identity_keys : gset string :=
  {[ "dashboard_id"; "version"; "created_at"; "domain_id" ]}.

Definition content_keys : gset string :=
  {[ "layouts"; "variables"; "settings"; "variables_schema" ]}.

(** ** [manager/public_dashboard_manager.py] and
       [manager/private_dashboard_manager.py]

    A document is the dict of its fields; the documents of a model are kept
    under the handle a [vo] stands for. *)

(** What the two model classes, which are not among the sources, declare
    and what their read calls answer: the fields a new document starts
    with, the fields an update may set, and [get], [filter], [query] and
    [stat] on the stored documents. *)
Class DocumentModel := {
  model_defaults : gmap string Value;
  model_updatable : list string;
  model_get :
    gmap string Value → gmap string (gmap string Value) → option string;
  model_filter :
    gmap string Value → gmap string (gmap string Value) → list string;
  model_query :
    Query.t → gmap string (gmap string Value) → list string * nat;
  model_stat : Query.t → gmap string (gmap string Value) → list Value
}.

(** The documents and the rollbacks registered so far, the last one
    first. *)
Record Transaction := mkTransaction {
  documents : gmap string (gmap string Value);
  rollbacks :
    list (gmap string (gmap string Value)
          → gmap string (gmap string Value))
}.







Module PublicDashboardManager.




(** The [conditions] dict [get_public_dashboard] builds. *)
Definition conditions (public_dashboard_id domain_id : string)
    (workspace_id : option string) (user_projects : option (list string))
    : gmap string Value :=
  let conditions : gmap string Value :=
    {[ "public_dashboard_id" := VStr public_dashboard_id;
       "domain_id" := VStr domain_id ]} in
  let conditions :=
    match workspace_id with
    | Some w =>
        if str_truth w then <["workspace_id" := VStr w]> conditions
        else conditions
    | None => conditions
    end in
  match user_projects with
  | Some l =>
      if list_truth l then <["project_id" := VList (VStr <$> l)]> conditions
      else conditions
  | None => conditions
  end.


Definition filter_public_dashboards `{DocumentModel}
    (conditions : gmap string Value) (t : Transaction) : list string :=
  model_filter conditions (documents t).

Definition list_public_dashboards `{DocumentModel} (query : Query.t)
    (t : Transaction) : list string * nat :=
  model_query query (documents t).

Definition stat_public_dashboards `{DocumentModel} (query : Query.t)
    (t : Transaction) : list Value :=
  model_stat query (documents t).

End PublicDashboardManager.

Module PrivateDashboardManager.




(** The keyword arguments [get_private_dashboard] passes to [get]. *)
Definition conditions (private_dashboard_id domain_id user_id : string)
    : gmap string Value :=
  {[ "private_dashboard_id" := VStr private_dashboard_id;
     "domain_id" := VStr domain_id;
     "user_id" := VStr user_id ]}.

Definition get_private_dashboard `{DocumentModel}
    (private_dashboard_id domain_id user_id : string)
    (t : Transaction) : Result string :=
  match model_get (conditions private_dashboard_id domain_id user_id)
          (documents t) with
  | Some dashboard_vo => Ok dashboard_vo
  | None => Raise ERROR_NOT_FOUND
  end.

Definition filter_private_dashboards `{DocumentModel}
    (conditions : gmap string Value) (t : Transaction) : list string :=
  model_filter conditions (documents t).

Definition list_private_dashboards `{DocumentModel} (query : Query.t)
    (t : Transaction) : list string * nat :=
  model_query query (documents t).

Definition stat_private_dashboards `{DocumentModel} (query : Query.t)
    (t : Transaction) : list Value :=
  model_stat query (documents t).

End PrivateDashboardManager.







(** ** More sample data *)

(** The first snapshot of [Sample.built], taken when the dashboard was
    created. *)
Definition built_v0 : DashboardVersion.t :=
  DashboardVersion.mk "0" 0 [VStr "w3"] ∅ ∅ ∅ "domain-1".

(** Every snapshot reports the same creation time. *)
Definition sample_created_at : CreatedAt :=
  λ _, VStr "2024-01-01T00:00:00Z".

(** Converters that keep a value in its container and a constructor that
    takes the keyword arguments whose [version] fits 32 bits. *)
Definition sample_message_type : MessageType :=
  {| Message := gmap string Value;
     change_struct_type := VDict;
     change_list_value_type := VList;
     dashboard_pb2_DashboardVersionInfo info :=
       match info !! "version" with
       | Some (VNum version) =>
           if bool_decide (-2 ^ 31 ≤ version < 2 ^ 31)%Z
           then Some info else None
       | _ => None
       end |}.

(** * Properties *)

(** ** Running a computation *)

Lemma bind_ok {A B} (m : M A) (f : A → M B) s a s' :
  m s = (Ok a, s') → (m ≫= f) s = f a s'.
Proof. intros Hm. unfold mbind, M_bind. by rewrite Hm. Qed.

Lemma bind_raise {A B} (m : M A) (f : A → M B) s e s' :
  m s = (Raise e, s') → (m ≫= f) s = (Raise e, s').
Proof. intros Hm. unfold mbind, M_bind. by rewrite Hm. Qed.

Lemma has_dashboard_lookup s dashboard_id domain_id dashboard_vo :
  has_dashboard s dashboard_id domain_id dashboard_vo ↔
  dashboards s !! dashboard_id = Some dashboard_vo
  ∧ Dashboard.dashboard_id dashboard_vo = dashboard_id
  ∧ Dashboard.domain_id dashboard_vo = domain_id.
Proof.
  unfold has_dashboard, DashboardManager.get_domain_dashboard. split.
  - destruct (dashboards s !! dashboard_id) as [vo|]; [|done].
    case_decide as Hvo; [|done]. intros [= ->]. by destruct Hvo.
  - intros (-> & Hid & Hdom). by rewrite decide_True.
Qed.

(** The gate lets the owner and every caller of a non-private record
    through. *)
Lemma private_of_other_false dashboard_vo user_id :
  DashboardService.private_of_other dashboard_vo user_id = false ↔
  Dashboard.viewers dashboard_vo ≠ "PRIVATE"
  ∨ Dashboard.user_id dashboard_vo = user_id.
Proof.
  unfold DashboardService.private_of_other.
  rewrite andb_false_iff, String.eqb_neq, bool_decide_eq_false.
  split; (intros [H|H]; [by left | right]).
  - by destruct (decide (Dashboard.user_id dashboard_vo = user_id)).
  - by intros ?.
Qed.

Lemma private_of_other_true dashboard_vo user_id :
  DashboardService.private_of_other dashboard_vo user_id = true ↔
  Dashboard.viewers dashboard_vo = "PRIVATE"
  ∧ Dashboard.user_id dashboard_vo ≠ user_id.
Proof.
  unfold DashboardService.private_of_other.
  by rewrite andb_true_iff, String.eqb_eq, bool_decide_eq_true.
Qed.

(** ** Settings merge *)

Lemma dict_truth_true m : dict_truth m = true ↔ m ≠ ∅.
Proof. unfold dict_truth. apply bool_decide_eq_true. Qed.

Lemma dict_truth_false m : dict_truth m = false ↔ m = ∅.
Proof.
  unfold dict_truth. rewrite bool_decide_eq_false.
  split; [|by intros -> ?]. intros H. by destruct (decide (m = ∅)).
Qed.

Lemma merge_settings_nonempty old new :
  old ≠ ∅ → DashboardService._merge_settings (Some old) new = new ∪ old.
Proof.
  intros H. unfold DashboardService._merge_settings.
  by rewrite (proj2 (dict_truth_true old) H).
Qed.

(** ** Version-worthy updates *)

Lemma update_params_version_fields dashboard_vo params :
  Params.layouts (update_params dashboard_vo params) = Params.layouts params
  ∧ Params.variables (update_params dashboard_vo params)
    = Params.variables params
  ∧ Params.variables_schema (update_params dashboard_vo params)
    = Params.variables_schema params.
Proof.
  unfold update_params.
  destruct (Params.name params), (Params.settings params) eqn:E;
    simpl; rewrite ?E; done.
Qed.

(** Past the gate, [update] is the version test followed by the patch. *)
Lemma update_allowed user_id params s dashboard_vo :
  has_dashboard s (Params.dashboard_id params) (Params.domain_id params)
    dashboard_vo →
  DashboardService.private_of_other dashboard_vo user_id = false →
  DashboardService.update user_id params s
  = (vo ← (if option_truth
               (DashboardService._has_version_key_in_params dashboard_vo
                  (update_params dashboard_vo params) version_change_keys)
          then
            vo ← DashboardManager.increase_version dashboard_vo;
            DashboardVersionManager.create_version_by_domain_dashboard_vo
              vo (Params.layouts params) (Params.variables params)
              (Params.variables_schema params) ;;
            mret vo
          else mret dashboard_vo);
     DashboardManager.update_domain_dashboard_by_vo
       (update_params dashboard_vo params) vo) s.
Proof.
  intros Hget Hgate. unfold DashboardService.update.
  rewrite (bind_ok _ _ _ _ _ Hget). rewrite Hgate.
  destruct (update_params_version_fields dashboard_vo params)
    as (El & Ev & Es).
  unfold update_params in *. rewrite El, Ev, Es. reflexivity.
Qed.

Lemma update_denied user_id params s dashboard_vo :
  has_dashboard s (Params.dashboard_id params) (Params.domain_id params)
    dashboard_vo →
  DashboardService.private_of_other dashboard_vo user_id = true →
  DashboardService.update user_id params s
  = (Raise ERROR_PERMISSION_DENIED, s).
Proof.
  intros Hget Hgate. unfold DashboardService.update.
  rewrite (bind_ok _ _ _ _ _ Hget). by rewrite Hgate.
Qed.

Lemma update_not_found user_id params s e s' :
  DashboardManager.get_domain_dashboard (Params.dashboard_id params)
    (Params.domain_id params) None s = (Raise e, s') →
  DashboardService.update user_id params s = (Raise e, s').
Proof.
  intros Hget. unfold DashboardService.update.
  by rewrite (bind_raise _ _ _ _ _ Hget).
Qed.

Lemma any_true keys k :
  k ∈ keys → str_truth k = true → DashboardService.any keys = true.
Proof.
  intros Hk Ht. unfold DashboardService.any. apply existsb_exists.
  exists k. split; [by apply list_elem_of_In | done].
Qed.

Lemma any_version_key params :
  has_version_key params →
  DashboardService.any
    (filter (λ key, key ∈ version_change_keys) (Params.keys params)) = true.
Proof.
  unfold has_version_key, Params.keys, version_change_keys.
  intros [[l Hl]|[[m Hm]|[m Hm]]].
  - apply (any_true _ "layouts"); [|done].
    apply list_elem_of_filter. rewrite Hl. simpl. set_solver.
  - apply (any_true _ "variables"); [|done].
    apply list_elem_of_filter. rewrite Hm. simpl. set_solver.
  - apply (any_true _ "variables_schema"); [|done].
    apply list_elem_of_filter. rewrite Hm. simpl. set_solver.
Qed.

Lemma list_truth_true {A} (l : list A) : list_truth l = true ↔ l ≠ [].
Proof. by destruct l. Qed.

(** The three walrus tests of [_has_version_key_in_params]. *)
Lemma layouts_test (o : option (list Value)) (current : list Value) :
  match o with
  | Some l => list_truth l && bool_decide (current ≠ l)
  | None => false
  end = true
  ↔ ∃ l, o = Some l ∧ l ≠ [] ∧ l ≠ current.
Proof.
  destruct o as [l|]; [|naive_solver].
  rewrite andb_true_iff, list_truth_true, bool_decide_eq_true.
  naive_solver.
Qed.

Lemma variables_test (o : option (gmap string Value))
    (current : gmap string Value) :
  match o with
  | Some m => dict_truth m && bool_decide (current ≠ m)
  | None => false
  end = true
  ↔ ∃ m, o = Some m ∧ m ≠ ∅ ∧ m ≠ current.
Proof.
  destruct o as [m|]; [|naive_solver].
  rewrite andb_true_iff, dict_truth_true, bool_decide_eq_true.
  naive_solver.
Qed.

Lemma variables_schema_test (o : option (gmap string Value))
    (current : gmap string Value) :
  match o with
  | Some m => dict_truth m && bool_decide (m ≠ current)
  | None => false
  end = true
  ↔ ∃ m, o = Some m ∧ m ≠ ∅ ∧ m ≠ current.
Proof.
  destruct o as [m|]; [|naive_solver].
  rewrite andb_true_iff, dict_truth_true, bool_decide_eq_true.
  naive_solver.
Qed.

Lemma sets_version_field_key dashboard_vo params :
  sets_version_field dashboard_vo params → has_version_key params.
Proof.
  unfold has_version_key.
  intros [(l & -> & _)|[(m & -> & _)|(m & -> & _)]]; eauto.
Qed.

(** The version test is true exactly for a patch that sets a version-bearing
    field to a new, non-empty value. *)
Lemma has_version_key_in_params_true dashboard_vo params :
  option_truth
    (DashboardService._has_version_key_in_params dashboard_vo params
       version_change_keys) = true
  ↔ sets_version_field dashboard_vo params.
Proof.
  unfold sets_version_field at 1.
  rewrite <- layouts_test, <- variables_test, <- variables_schema_test.
  split.
  - unfold DashboardService._has_version_key_in_params.
    destruct (DashboardService.any _); [|done].
    repeat match goal with
           | |- context [if ?b then _ else _] => destruct b; [by auto|]
           end.
    done.
  - intros H. unfold DashboardService._has_version_key_in_params.
    rewrite any_version_key.
    + by destruct H as [->|[->| ->]];
        repeat match goal with
               | |- context [if ?b then _ else _] => destruct b
               end.
    + eapply (sets_version_field_key dashboard_vo). unfold sets_version_field.
      by rewrite <- layouts_test, <- variables_test, <- variables_schema_test.
Qed.

(** ** What an update does to the version counter and the snapshots *)

Lemma sets_version_field_update_params dashboard_vo params :
  sets_version_field dashboard_vo (update_params dashboard_vo params)
  ↔ sets_version_field dashboard_vo params.
Proof.
  destruct (update_params_version_fields dashboard_vo params)
    as (El & Ev & Es).
  unfold sets_version_field. by rewrite El, Ev, Es.
Qed.

Lemma has_version_key_update_params dashboard_vo params :
  has_version_key (update_params dashboard_vo params)
  ↔ has_version_key params.
Proof.
  destruct (update_params_version_fields dashboard_vo params)
    as (El & Ev & Es).
  unfold has_version_key. by rewrite El, Ev, Es.
Qed.

Lemma version_in_has_dashboard s dashboard_id domain_id dashboard_vo :
  has_dashboard s dashboard_id domain_id dashboard_vo →
  version_in s dashboard_id = Some (Dashboard.version dashboard_vo).
Proof.
  intros (Hl & _)%has_dashboard_lookup. unfold version_in. by rewrite Hl.
Qed.

(** An update that fails the version test leaves snapshots and counter
    alone, whether the gate lets it through or not. *)
Lemma update_not_version_worthy user_id params s dashboard_vo :
  has_dashboard s (Params.dashboard_id params) (Params.domain_id params)
    dashboard_vo →
  option_truth
    (DashboardService._has_version_key_in_params dashboard_vo
       (update_params dashboard_vo params) version_change_keys) = false →
  dashboard_versions (DashboardService.update user_id params s).2
  = dashboard_versions s
  ∧ version_in (DashboardService.update user_id params s).2
      (Params.dashboard_id params)
    = Some (Dashboard.version dashboard_vo).
Proof.
  intros Hget Htest.
  destruct (DashboardService.private_of_other dashboard_vo user_id) eqn:Hgate.
  - rewrite (update_denied _ _ _ _ Hget Hgate). simpl.
    split; [done | by eapply version_in_has_dashboard].
  - rewrite (update_allowed _ _ _ _ Hget Hgate), Htest.
    apply has_dashboard_lookup in Hget as (_ & Hid & _).
    unfold version_in. simpl. rewrite Hid, lookup_insert_eq. done.
Qed.

(** When the version test holds, [update] increases the version, then
    creates the snapshot, then applies the patch. *)
Lemma update_version_worthy user_id params s dashboard_vo :
  has_dashboard s (Params.dashboard_id params) (Params.domain_id params)
    dashboard_vo →
  DashboardService.private_of_other dashboard_vo user_id = false →
  sets_version_field dashboard_vo params →
  DashboardService.update user_id params s
  = (vo ← DashboardManager.increase_version dashboard_vo;
     DashboardVersionManager.create_version_by_domain_dashboard_vo
       vo (Params.layouts params) (Params.variables params)
       (Params.variables_schema params) ;;
     DashboardManager.update_domain_dashboard_by_vo
       (update_params dashboard_vo params) vo) s.
Proof.
  intros Hget Hgate Hset.
  rewrite (update_allowed _ _ _ _ Hget Hgate).
  apply sets_version_field_update_params,
    has_version_key_in_params_true in Hset.
  by rewrite Hset.
Qed.

(** C1, as amended: an update that passes the access gate and sets a
    version-bearing field to a non-empty value different from the record's
    increases the version by one, then creates exactly one snapshot, which
    carries the record's new version, then applies the patch. *)
Theorem update_creates_one_version user_id params s dashboard_vo :
  has_dashboard s (Params.dashboard_id params) (Params.domain_id params)
    dashboard_vo →
  DashboardService.private_of_other dashboard_vo user_id = false →
  sets_version_field dashboard_vo params →
  ∃ vo version_vo s',
    DashboardService.update user_id params s = (Ok vo, s')
    ∧ DashboardService.update user_id params s
      = (vo ← DashboardManager.increase_version dashboard_vo;
         DashboardVersionManager.create_version_by_domain_dashboard_vo
           vo (Params.layouts params) (Params.variables params)
           (Params.variables_schema params) ;;
         DashboardManager.update_domain_dashboard_by_vo
           (update_params dashboard_vo params) vo) s
    ∧ dashboards s' !! Params.dashboard_id params = Some vo
    ∧ Dashboard.version vo = (Dashboard.version dashboard_vo + 1)%Z
    ∧ dashboard_versions s' = dashboard_versions s ++ [version_vo]
    ∧ DashboardVersion.dashboard_id version_vo = Params.dashboard_id params
    ∧ DashboardVersion.version version_vo = Dashboard.version vo.
Proof.
  intros Hget Hgate Hset.
  rewrite (update_version_worthy _ _ _ _ Hget Hgate Hset).
  apply has_dashboard_lookup in Hget as (_ & Hid & _).
  do 3 eexists. split; [reflexivity|]. split; [reflexivity|]. simpl.
  rewrite Hid, lookup_insert_eq. done.
Qed.

(** C2: an update whose version-bearing fields all equal the record's
    current values creates no snapshot and leaves the version counter as it
    is. *)
Theorem update_unchanged_fields_no_version user_id params s dashboard_vo :
  has_dashboard s (Params.dashboard_id params) (Params.domain_id params)
    dashboard_vo →
  keeps_version_fields dashboard_vo params →
  dashboard_versions (DashboardService.update user_id params s).2
  = dashboard_versions s
  ∧ version_in (DashboardService.update user_id params s).2
      (Params.dashboard_id params)
    = Some (Dashboard.version dashboard_vo).
Proof.
  intros Hget Hkeep. apply (update_not_version_worthy _ _ _ _ Hget).
  apply not_true_is_false.
  rewrite has_version_key_in_params_true, sets_version_field_update_params.
  destruct Hkeep as (Hl & Hv & Hs). unfold sets_version_field. naive_solver.
Qed.

(** C10: an update whose patch has a version-bearing key, every such field
    in it being empty, fails the version test (the test answers [False]):
    no snapshot, same version counter, whatever the record's current
    values are. *)
Theorem update_empty_fields_no_version user_id params s dashboard_vo :
  has_dashboard s (Params.dashboard_id params) (Params.domain_id params)
    dashboard_vo →
  has_version_key params →
  empty_version_fields params →
  DashboardService._has_version_key_in_params dashboard_vo
    (update_params dashboard_vo params) version_change_keys = Some false
  ∧ dashboard_versions (DashboardService.update user_id params s).2
    = dashboard_versions s
  ∧ version_in (DashboardService.update user_id params s).2
      (Params.dashboard_id params)
    = Some (Dashboard.version dashboard_vo).
Proof.
  intros Hget Hkey Hempty.
  assert (option_truth
            (DashboardService._has_version_key_in_params dashboard_vo
               (update_params dashboard_vo params) version_change_keys)
          = false) as Htest.
  { apply not_true_is_false.
    rewrite has_version_key_in_params_true, sets_version_field_update_params.
    destruct Hempty as (Hl & Hv & Hs). unfold sets_version_field.
    naive_solver. }
  split; [|by apply update_not_version_worthy].
  apply has_version_key_update_params with (dashboard_vo := dashboard_vo),
    any_version_key in Hkey.
  revert Htest. unfold DashboardService._has_version_key_in_params.
  rewrite Hkey.
  repeat match goal with
         | |- context [if ?b then _ else _] => destruct b; [done|]
         end.
  done.
Qed.

(** ** Deleting a version *)

Lemma delete_version_allowed user_id params s dashboard_vo :
  has_dashboard s (VersionParams.dashboard_id params)
    (VersionParams.domain_id params) dashboard_vo →
  DashboardService.private_of_other dashboard_vo user_id = false →
  DashboardService.delete_version user_id params s
  = (if bool_decide (Dashboard.version dashboard_vo
                     = VersionParams.version params)
     then raise (ERROR_LATEST_VERSION (VersionParams.version params))
     else DashboardVersionManager.delete_version
            (VersionParams.dashboard_id params)
            (VersionParams.version params)
            (VersionParams.domain_id params)) s.
Proof.
  intros Hget Hgate. unfold DashboardService.delete_version.
  rewrite (bind_ok _ _ _ _ _ Hget). by rewrite Hgate.
Qed.

(** C3, as amended: for a dashboard the caller passes the access gate of,
    [delete_version] at the record's current version raises
    [ERROR_LATEST_VERSION] with the requested version and leaves the store
    as it is; at any other version it is the version manager's
    [delete_version] of that snapshot. *)
Theorem delete_version_latest user_id params s dashboard_vo :
  has_dashboard s (VersionParams.dashboard_id params)
    (VersionParams.domain_id params) dashboard_vo →
  DashboardService.private_of_other dashboard_vo user_id = false →
  (VersionParams.version params = Dashboard.version dashboard_vo →
   DashboardService.delete_version user_id params s
   = (Raise (ERROR_LATEST_VERSION (VersionParams.version params)), s))
  ∧ (VersionParams.version params ≠ Dashboard.version dashboard_vo →
     DashboardService.delete_version user_id params s
     = DashboardVersionManager.delete_version
         (VersionParams.dashboard_id params) (VersionParams.version params)
         (VersionParams.domain_id params) s).
Proof.
  intros Hget Hgate. rewrite (delete_version_allowed _ _ _ _ Hget Hgate).
  split; intros Hv.
  - by rewrite bool_decide_eq_true_2.
  - by rewrite bool_decide_eq_false_2.
Qed.

(** Past the gate and with the snapshot found, [revert_version] is the
    three manager calls on the patch built from the snapshot. *)
Lemma revert_version_allowed user_id params s dashboard_vo version_vo :
  has_dashboard s (VersionParams.dashboard_id params)
    (VersionParams.domain_id params) dashboard_vo →
  DashboardService.private_of_other dashboard_vo user_id = false →
  DashboardVersionManager.get_version (VersionParams.dashboard_id params)
    (VersionParams.version params) (VersionParams.domain_id params) None s
  = (Ok version_vo, s) →
  DashboardService.revert_version user_id params s
  = (let patch :=
       Params.set_version_fields (DashboardVersion.layouts version_vo)
         (DashboardVersion.variables version_vo)
         (DashboardVersion.variables_schema version_vo)
         (VersionParams.to_params params) in
     vo ← DashboardManager.increase_version dashboard_vo;
     DashboardVersionManager.create_version_by_domain_dashboard_vo vo
       (Params.layouts patch) (Params.variables patch)
       (Params.variables_schema patch) ;;
     DashboardManager.update_domain_dashboard_by_vo patch vo) s.
Proof.
  intros Hget Hgate Hver. unfold DashboardService.revert_version.
  rewrite (bind_ok _ _ _ _ _ Hget). rewrite Hgate.
  by rewrite (bind_ok _ _ _ _ _ Hver).
Qed.

(** ** Deleting a dashboard *)

Lemma list_filter_ext_in {A} (P1 P2 : A → Prop)
    `{!∀ x, Decision (P1 x), !∀ x, Decision (P2 x)} (l : list A) :
  (∀ x, x ∈ l → P1 x ↔ P2 x) → filter P1 l = filter P2 l.
Proof.
  induction l as [|x l IH]; intros Hext; [done|].
  rewrite !filter_cons, IH by (intros y Hy; apply Hext; by right).
  destruct (decide (P1 x)) as [H1|H1], (decide (P2 x)) as [H2|H2];
    [done| | |done]; exfalso; apply Hext in H1 || apply Hext in H2;
    done || by left.
Qed.

Lemma filter_versions_removed dashboard_id (l : list DashboardVersion.t) :
  filter (λ vo, vo ∉ filter
                  (λ vo, DashboardVersion.dashboard_id vo = dashboard_id) l) l
  = filter (λ vo, DashboardVersion.dashboard_id vo ≠ dashboard_id) l.
Proof.
  apply list_filter_ext_in. intros vo Hvo.
  rewrite list_elem_of_filter. naive_solver.
Qed.

Lemma delete_allowed user_id params s dashboard_vo :
  has_dashboard s (Params.dashboard_id params) (Params.domain_id params)
    dashboard_vo →
  DashboardService.private_of_other dashboard_vo user_id = false →
  DashboardService.delete user_id params s
  = (vos ← DashboardVersionManager.filter_versions
             (Dashboard.dashboard_id dashboard_vo);
     (if list_truth vos
      then DashboardVersionManager
             .delete_versions_by_domain_dashboard_version_vos vos
      else mret tt) ;;
     DashboardManager.delete_by_domain_dashboard_vo dashboard_vo) s.
Proof.
  intros Hget Hgate. unfold DashboardService.delete.
  rewrite (bind_ok _ _ _ _ _ Hget). by rewrite Hgate.
Qed.

(** Skipping the deletion of an empty list of snapshots is the same as
    running it. *)
Lemma delete_versions_guard (vos : list DashboardVersion.t) s :
  (if list_truth vos
   then DashboardVersionManager
          .delete_versions_by_domain_dashboard_version_vos vos
   else mret tt) s
  = DashboardVersionManager.delete_versions_by_domain_dashboard_version_vos
      vos s.
Proof.
  destruct vos as [|vo vos]; [|done]. simpl.
  unfold DashboardVersionManager
           .delete_versions_by_domain_dashboard_version_vos, modify,
    set_dashboard_versions, mret, M_ret.
  f_equal. destruct s as [ds vs]. simpl. f_equal.
  symmetry. clear. induction vs as [|v vs IH]; [done|].
  rewrite filter_cons_True by (by intros ?%elem_of_nil). by rewrite IH.
Qed.

Lemma find_is_version_none dashboard_id version domain_id
    (l : list DashboardVersion.t) :
  (∀ vo, vo ∈ l → DashboardVersion.dashboard_id vo ≠ dashboard_id) →
  List.find (DashboardVersionManager.is_version dashboard_id version
               domain_id) l = None.
Proof.
  intros Hl. destruct (List.find _ l) as [vo|] eqn:E; [|done].
  apply find_some in E as [Hin Hvo]. apply list_elem_of_In, Hl in Hin.
  unfold DashboardVersionManager.is_version in Hvo.
  apply bool_decide_eq_true in Hvo. naive_solver.
Qed.

(** C8, as amended: for a dashboard the caller passes the access gate of,
    [delete] returns after removing first every snapshot of the dashboard
    and then the record; afterwards neither the record nor a snapshot of
    that dashboard is found, through the managers or through the service. *)
Theorem delete_cascades user_id params s dashboard_vo :
  has_dashboard s (Params.dashboard_id params) (Params.domain_id params)
    dashboard_vo →
  DashboardService.private_of_other dashboard_vo user_id = false →
  ∃ s',
    DashboardService.delete user_id params s = (Ok tt, s')
    ∧ DashboardService.delete user_id params s
      = (vos ← DashboardVersionManager.filter_versions
                 (Params.dashboard_id params);
         DashboardVersionManager
           .delete_versions_by_domain_dashboard_version_vos vos ;;
         DashboardManager.delete_by_domain_dashboard_vo dashboard_vo) s
    ∧ dashboards s' = delete (Params.dashboard_id params) (dashboards s)
    ∧ dashboard_versions s'
      = filter (λ vo, DashboardVersion.dashboard_id vo
                      ≠ Params.dashboard_id params) (dashboard_versions s)
    ∧ (∀ domain_id only,
         DashboardManager.get_domain_dashboard (Params.dashboard_id params)
           domain_id only s' = (Raise ERROR_NOT_FOUND, s'))
    ∧ (∀ version domain_id only,
         DashboardVersionManager.get_version (Params.dashboard_id params)
           version domain_id only s' = (Raise ERROR_NOT_FOUND, s'))
    ∧ (∀ caller p,
         Params.dashboard_id p = Params.dashboard_id params →
         DashboardService.get caller p s' = (Raise ERROR_NOT_FOUND, s'))
    ∧ (∀ caller p,
         VersionParams.dashboard_id p = Params.dashboard_id params →
         DashboardService.get_version caller p s'
         = (Raise ERROR_NOT_FOUND, s')).
Proof.
  intros Hget Hgate. rewrite (delete_allowed _ _ _ _ Hget Hgate).
  apply has_dashboard_lookup in Hget as (_ & Hid & _). rewrite Hid.
  set (s' := mkStore (delete (Params.dashboard_id params) (dashboards s))
               (filter (λ vo, DashboardVersion.dashboard_id vo
                              ≠ Params.dashboard_id params)
                  (dashboard_versions s))).
  assert ((vos ← DashboardVersionManager.filter_versions
                   (Params.dashboard_id params);
           DashboardVersionManager
             .delete_versions_by_domain_dashboard_version_vos vos ;;
           DashboardManager.delete_by_domain_dashboard_vo dashboard_vo) s
          = (Ok tt, s')) as Hrun.
  { unfold s'. run_store. by rewrite Hid, filter_versions_removed. }
  assert (∀ domain_id only,
            DashboardManager.get_domain_dashboard
              (Params.dashboard_id params) domain_id only s'
            = (Raise ERROR_NOT_FOUND, s')) as Hrec.
  { intros. unfold DashboardManager.get_domain_dashboard. simpl.
    by rewrite lookup_delete_eq. }
  assert ((vos ← DashboardVersionManager.filter_versions
                   (Params.dashboard_id params);
           (if list_truth vos
            then DashboardVersionManager
                   .delete_versions_by_domain_dashboard_version_vos vos
            else mret tt) ;;
           DashboardManager.delete_by_domain_dashboard_vo dashboard_vo) s
          = (vos ← DashboardVersionManager.filter_versions
                     (Params.dashboard_id params);
             DashboardVersionManager
               .delete_versions_by_domain_dashboard_version_vos vos ;;
             DashboardManager.delete_by_domain_dashboard_vo dashboard_vo) s)
    as Hguard.
  { cbv [mbind M_bind DashboardVersionManager.filter_versions gets].
    by rewrite delete_versions_guard. }
  rewrite Hguard, Hrun.
  exists s'. do 5 (split; [done|]). split; [|split].
    + intros version domain_id only.
      unfold DashboardVersionManager.get_version.
      rewrite find_is_version_none; [done|].
      intros vo. simpl. rewrite list_elem_of_filter. naive_solver.
    + intros caller p Hp. unfold DashboardService.get.
      rewrite Hp. by rewrite (bind_raise _ _ _ _ _ (Hrec _ _)).
    + intros caller p Hp. unfold DashboardService.get_version.
      rewrite Hp. by rewrite (bind_raise _ _ _ _ _ (Hrec _ _)).
Qed.

(** ** The access gate *)

(** The managers never raise [ERROR_PERMISSION_DENIED]. *)
Lemma get_version_not_denied dashboard_id version domain_id only s :
  ¬ denied (DashboardVersionManager.get_version dashboard_id version
              domain_id only s).
Proof.
  unfold denied, DashboardVersionManager.get_version.
  by destruct (List.find _ _).
Qed.

Lemma manager_delete_version_not_denied dashboard_id version domain_id s :
  ¬ denied (DashboardVersionManager.delete_version dashboard_id version
              domain_id s).
Proof.
  unfold denied, DashboardVersionManager.delete_version.
  cbv [mbind M_bind DashboardVersionManager.get_version].
  destruct (dashboards s !! dashboard_id) as [vo|];
    [case_decide; [done|]|]; by destruct (List.find _ _).
Qed.

Section gate.
Context `{DocumentStore}.
Context (user_id : option string) (s : Store) (dashboard_vo : Dashboard.t).
Context (params : Params.t) (vparams : VersionParams.t).
Context (Hget : has_dashboard s (Params.dashboard_id params)
                  (Params.domain_id params) dashboard_vo).
Context (Hvget : has_dashboard s (VersionParams.dashboard_id vparams)
                   (VersionParams.domain_id vparams) dashboard_vo).

Lemma gate_denies :
  DashboardService.private_of_other dashboard_vo user_id = true →
  DashboardService.update user_id params s
  = (Raise ERROR_PERMISSION_DENIED, s)
  ∧ DashboardService.delete user_id params s
    = (Raise ERROR_PERMISSION_DENIED, s)
  ∧ DashboardService.get user_id params s
    = (Raise ERROR_PERMISSION_DENIED, s)
  ∧ DashboardService.delete_version user_id vparams s
    = (Raise ERROR_PERMISSION_DENIED, s)
  ∧ DashboardService.revert_version user_id vparams s
    = (Raise ERROR_PERMISSION_DENIED, s)
  ∧ DashboardService.get_version user_id vparams s
    = (Raise ERROR_PERMISSION_DENIED, s)
  ∧ DashboardService.list_versions user_id params s
    = (Raise ERROR_PERMISSION_DENIED, s).
Proof using Hget Hvget.
  intros Hgate. split; [by apply (update_denied _ _ _ dashboard_vo)|].
  unfold DashboardService.delete, DashboardService.get,
    DashboardService.delete_version, DashboardService.revert_version,
    DashboardService.get_version, DashboardService.list_versions.
  repeat split;
    try (rewrite (bind_ok _ _ _ _ _
                    (Hget : DashboardManager.get_domain_dashboard _ _
                              (Params.only params) s = _)));
    try (rewrite (bind_ok _ _ _ _ _ Hget));
    try (rewrite (bind_ok _ _ _ _ _ Hvget));
    try (by rewrite Hgate).
  cbv [mbind M_bind DashboardVersionManager.list_versions gets].
  destruct (query_versions _ _) as [vos total].
  unfold has_dashboard in Hget. by rewrite Hget, Hgate.
Qed.

Lemma gate_allows :
  DashboardService.private_of_other dashboard_vo user_id = false →
  ¬ denied (DashboardService.update user_id params s)
  ∧ ¬ denied (DashboardService.delete user_id params s)
  ∧ ¬ denied (DashboardService.get user_id params s)
  ∧ ¬ denied (DashboardService.delete_version user_id vparams s)
  ∧ ¬ denied (DashboardService.revert_version user_id vparams s)
  ∧ ¬ denied (DashboardService.get_version user_id vparams s)
  ∧ ¬ denied (DashboardService.list_versions user_id params s).
Proof using Hget Hvget.
  intros Hgate. repeat split.
  - rewrite (update_allowed _ _ _ _ Hget Hgate).
    by destruct (option_truth _).
  - rewrite (delete_allowed _ _ _ _ Hget Hgate).
    cbv [mbind M_bind DashboardVersionManager.filter_versions gets].
    by rewrite delete_versions_guard.
  - unfold DashboardService.get.
    rewrite (bind_ok _ _ _ _ _
               (Hget : DashboardManager.get_domain_dashboard _ _
                         (Params.only params) s = _)).
    by rewrite Hgate.
  - rewrite (delete_version_allowed _ _ _ _ Hvget Hgate).
    case_bool_decide; [done|]. apply manager_delete_version_not_denied.
  - unfold DashboardService.revert_version.
    rewrite (bind_ok _ _ _ _ _ Hvget). rewrite Hgate.
    unfold denied, mbind at 1, M_bind, DashboardVersionManager.get_version.
    by destruct (List.find _ _).
  - unfold DashboardService.get_version.
    rewrite (bind_ok _ _ _ _ _ Hvget). rewrite Hgate.
    apply get_version_not_denied.
  - unfold DashboardService.list_versions.
    cbv [mbind M_bind DashboardVersionManager.list_versions gets].
    destruct (query_versions _ _) as [vos total].
    unfold has_dashboard in Hget. by rewrite Hget, Hgate.
Qed.
End gate.

(** C5: on a record that is PRIVATE and owned by someone else, [update],
    [delete], [get], [delete_version], [revert_version], [get_version] and
    [list_versions] all raise [ERROR_PERMISSION_DENIED] and leave the store
    as it was; for the owner, and on a record that is not PRIVATE, none of
    them raises it. *)
Theorem private_gate `{DocumentStore} (user_id : option string) (s : Store)
    (dashboard_vo : Dashboard.t) (params : Params.t)
    (vparams : VersionParams.t) :
  has_dashboard s (Params.dashboard_id params) (Params.domain_id params)
    dashboard_vo →
  has_dashboard s (VersionParams.dashboard_id vparams)
    (VersionParams.domain_id vparams) dashboard_vo →
  (Dashboard.viewers dashboard_vo = "PRIVATE" →
   Dashboard.user_id dashboard_vo ≠ user_id →
   DashboardService.update user_id params s
   = (Raise ERROR_PERMISSION_DENIED, s)
   ∧ DashboardService.delete user_id params s
     = (Raise ERROR_PERMISSION_DENIED, s)
   ∧ DashboardService.get user_id params s
     = (Raise ERROR_PERMISSION_DENIED, s)
   ∧ DashboardService.delete_version user_id vparams s
     = (Raise ERROR_PERMISSION_DENIED, s)
   ∧ DashboardService.revert_version user_id vparams s
     = (Raise ERROR_PERMISSION_DENIED, s)
   ∧ DashboardService.get_version user_id vparams s
     = (Raise ERROR_PERMISSION_DENIED, s)
   ∧ DashboardService.list_versions user_id params s
     = (Raise ERROR_PERMISSION_DENIED, s))
  ∧ (Dashboard.viewers dashboard_vo ≠ "PRIVATE"
     ∨ Dashboard.user_id dashboard_vo = user_id →
     ¬ denied (DashboardService.update user_id params s)
     ∧ ¬ denied (DashboardService.delete user_id params s)
     ∧ ¬ denied (DashboardService.get user_id params s)
     ∧ ¬ denied (DashboardService.delete_version user_id vparams s)
     ∧ ¬ denied (DashboardService.revert_version user_id vparams s)
     ∧ ¬ denied (DashboardService.get_version user_id vparams s)
     ∧ ¬ denied (DashboardService.list_versions user_id params s)).
Proof.
  intros Hget Hvget. split.
  - intros Hprivate Hother. eapply gate_denies; [exact Hget|exact Hvget|].
    by apply private_of_other_true.
  - intros Hopen. eapply gate_allows; [exact Hget|exact Hvget|].
    by apply private_of_other_false.
Qed.

(** ** Settings merge in an update *)

Lemma merge_settings_lookup (old new : gmap string Value) (k : string) :
  (is_Some (new !! k) → (new ∪ old) !! k = new !! k)
  ∧ (new !! k = None → (new ∪ old) !! k = old !! k).
Proof.
  split.
  - intros [v Hv]. rewrite Hv. by apply lookup_union_Some_l.
  - intros Hk. by apply lookup_union_r.
Qed.

Lemma update_params_settings dashboard_vo params new_settings :
  Params.settings params = Some new_settings →
  Params.settings (update_params dashboard_vo params)
  = Some (DashboardService._merge_settings (Dashboard.settings dashboard_vo)
            new_settings).
Proof.
  intros Hs. unfold update_params.
  destruct (Params.name params); simpl; by rewrite Hs.
Qed.

Lemma update_allowed_returns user_id params s dashboard_vo :
  has_dashboard s (Params.dashboard_id params) (Params.domain_id params)
    dashboard_vo →
  DashboardService.private_of_other dashboard_vo user_id = false →
  ∃ vo s',
    DashboardService.update user_id params s = (Ok vo, s')
    ∧ dashboards s' !! Params.dashboard_id params = Some vo
    ∧ ∃ z, vo = DashboardManager.patch (update_params dashboard_vo params)
                  (Dashboard.set_version z dashboard_vo).
Proof.
  intros Hget Hgate. rewrite (update_allowed _ _ _ _ Hget Hgate).
  apply has_dashboard_lookup in Hget as (_ & Hid & _).
  destruct (option_truth _).
  - do 2 eexists. split; [reflexivity|]. simpl.
    rewrite Hid, lookup_insert_eq. eauto.
  - do 2 eexists. split; [reflexivity|]. simpl.
    rewrite Hid, lookup_insert_eq. split; [done|].
    exists (Dashboard.version dashboard_vo). by destruct dashboard_vo.
Qed.

(** C7: [_merge_settings] on non-empty existing settings is the shallow
    merge in which every incoming key has the incoming value and every other
    key keeps its value; on absent or empty existing settings it is the
    incoming mapping; and these are the settings of the record an update
    with [settings] in its patch returns and stores, which it does whenever
    the gate lets the caller through. *)
Theorem update_merges_settings user_id params s dashboard_vo new_settings :
  has_dashboard s (Params.dashboard_id params) (Params.domain_id params)
    dashboard_vo →
  Params.settings params = Some new_settings →
  let merged :=
    DashboardService._merge_settings (Dashboard.settings dashboard_vo)
      new_settings in
  (∀ old, Dashboard.settings dashboard_vo = Some old → old ≠ ∅ →
     merged = new_settings ∪ old
     ∧ ∀ k, (is_Some (new_settings !! k) → merged !! k = new_settings !! k)
            ∧ (new_settings !! k = None → merged !! k = old !! k))
  ∧ (Dashboard.settings dashboard_vo = None
     ∨ Dashboard.settings dashboard_vo = Some ∅ → merged = new_settings)
  ∧ (∀ vo s', DashboardService.update user_id params s = (Ok vo, s') →
       Dashboard.settings vo = Some merged
       ∧ dashboards s' !! Params.dashboard_id params = Some vo)
  ∧ (DashboardService.private_of_other dashboard_vo user_id = false →
     ∃ vo s', DashboardService.update user_id params s = (Ok vo, s'))
  ∧ DashboardService._merge_settings (Some settings_ab) settings_bc
    = settings_abc
  ∧ DashboardService._merge_settings None settings_x = settings_x
  ∧ DashboardService._merge_settings (Some ∅) settings_x = settings_x.
Proof.
  intros Hget Hsettings merged. split; [|split; [|split; [|split]]].
  - intros old Hold Hne. unfold merged. rewrite Hold.
    rewrite merge_settings_nonempty by done.
    split; [done|]. intros k. apply merge_settings_lookup.
  - unfold merged. by intros [-> | ->].
  - intros vo s' Hrun.
    destruct (DashboardService.private_of_other dashboard_vo user_id)
      eqn:Hgate.
    { by rewrite (update_denied _ _ _ _ Hget Hgate) in Hrun. }
    destruct (update_allowed_returns _ _ _ _ Hget Hgate)
      as (vo1 & s1 & Hrun1 & Hstored & z & ->).
    rewrite Hrun in Hrun1. injection Hrun1 as -> ->.
    split; [|done]. unfold DashboardManager.patch. simpl.
    by rewrite (update_params_settings _ _ _ Hsettings).
  - intros Hgate.
    destruct (update_allowed_returns _ _ _ _ Hget Hgate)
      as (vo1 & s1 & Hrun1 & _). eauto.
  - repeat split; by vm_compute.
Qed.

(** ** Query scoping *)

(** C9: whatever query the caller supplies, the query [list] and [stat]
    hand the document store is that query with the ownership clause
    [{k: user_id, v: [caller's id, None], o: in}] appended to the caller's
    filter clauses: the clause is in the filter, every clause of the caller
    stays in it, the other keys of the query are the caller's, and a row
    matches iff it matches the caller's clauses and the ownership clause.
    [list] always hands that query over; [stat] does when [params] has a
    [query], and without one raises [ERROR_REQUIRED_PARAMETER] before
    anything is handed over. *)
Theorem list_stat_ownership `{DocumentStore} (user_id : option string)
    (params : ListParams.t) (s : Store) :
  let query := DashboardService.scoped_query user_id params in
  DashboardService.list user_id params s
  = (Ok (query_dashboards query (dashboards s)), s)
  ∧ DashboardService.stat user_id params s
    = match ListParams.query params with
      | Some _ => (Ok (stat_dashboards query (dashboards s)), s)
      | None => (Raise (ERROR_REQUIRED_PARAMETER "query"), s)
      end
  ∧ Query.filter query
    = Some (caller_filter params ++ [ownership_filter user_id])
  ∧ (∀ caller, user_id = Some caller →
       Query.filter query
       = Some (caller_filter params
                 ++ [Filter.mk "user_id" (VList [VStr caller; VNull]) "in"]))
  ∧ Query.rest query
    = Query.rest (default Query.empty (ListParams.query params))
  ∧ (∃ clauses, Query.filter query = Some clauses
                ∧ ownership_filter user_id ∈ clauses
                ∧ ∀ clause, clause ∈ caller_filter params → clause ∈ clauses)
  ∧ (∀ clause_holds row,
       filter_matches clause_holds query row
       = filter_matches clause_holds
           (default Query.empty (ListParams.query params)) row
         && clause_holds (ownership_filter user_id) row).
Proof.
  intros query.
  assert (Query.filter query
          = Some (caller_filter params ++ [ownership_filter user_id]))
    as Hfilter.
  { unfold query, DashboardService.scoped_query, ownership_filter,
      DashboardService.user_value. by destruct user_id. }
  split; [done|]. split.
  { unfold DashboardService.stat.
    by destruct (ListParams.query params). }
  split; [done|]. split.
  { intros caller ->. by rewrite Hfilter. }
  split; [done|]. split.
  - exists (caller_filter params ++ [ownership_filter user_id]).
    split; [done|]. set_solver.
  - intros clause_holds row. unfold filter_matches.
    rewrite Hfilter. unfold caller_filter. simpl.
    rewrite forallb_app. simpl. by rewrite andb_true_r.
Qed.

Lemma list_stat_ownership_witness :
  Query.filter
    (DashboardService.scoped_query (Some "u1")
       (ListParams.mk "domain-1"
          (Some (Query.mk (Some [Filter.mk "name" (VStr "ops") "eq"]) ∅))))
  = Some [Filter.mk "name" (VStr "ops") "eq";
          Filter.mk "user_id" (VList [VStr "u1"; VNull]) "in"].
Proof.
  apply (proj1 (proj2 (proj2 (proj2
           (list_stat_ownership (H := Sample.document_store) (Some "u1")
              (ListParams.mk "domain-1"
                 (Some (Query.mk (Some [Filter.mk "name" (VStr "ops") "eq"])
                          ∅)))
              Sample.store)))) "u1").
  reflexivity.
Defined.

(** ** The version counter along a run *)

(** [get_domain_dashboard] either finds the record or raises, and writes
    nothing. *)
Lemma get_domain_dashboard_cases dashboard_id domain_id only s :
  (∃ dashboard_vo, has_dashboard s dashboard_id domain_id dashboard_vo)
  ∨ DashboardManager.get_domain_dashboard dashboard_id domain_id only s
    = (Raise ERROR_NOT_FOUND, s).
Proof.
  unfold has_dashboard, DashboardManager.get_domain_dashboard.
  destruct (dashboards s !! dashboard_id) as [vo|]; [|by right].
  case_decide; [left; by exists vo | by right].
Qed.

Lemma get_version_store dashboard_id version domain_id only s :
  (DashboardVersionManager.get_version dashboard_id version domain_id only
     s).2 = s.
Proof.
  unfold DashboardVersionManager.get_version. by destruct (List.find _ _).
Qed.

Lemma get_version_cases dashboard_id version domain_id only s :
  (∃ version_vo,
     DashboardVersionManager.get_version dashboard_id version domain_id
       only s = (Ok version_vo, s))
  ∨ DashboardVersionManager.get_version dashboard_id version domain_id only
      s = (Raise ERROR_NOT_FOUND, s).
Proof.
  unfold DashboardVersionManager.get_version.
  destruct (List.find _ _); eauto.
Qed.

Lemma manager_delete_version_dashboards dashboard_id version domain_id s :
  dashboards
    (DashboardVersionManager.delete_version dashboard_id version domain_id
       s).2 = dashboards s.
Proof.
  unfold DashboardVersionManager.delete_version.
  cbv [mbind M_bind DashboardVersionManager.get_version].
  destruct (dashboards s !! dashboard_id) as [vo|];
    [case_decide; [done|]|]; by destruct (List.find _ _).
Qed.

Lemma create_version_in params s dashboard_id v :
  version_in s dashboard_id = Some v →
  version_in (DashboardService.create params s).2 dashboard_id = Some v.
Proof.
  intros Hv. unfold DashboardService.create.
  assert (fresh (dom (dashboards s)) ≠ dashboard_id) as Hfresh.
  { intros <-. unfold version_in in Hv.
    destruct (dashboards s !! fresh (dom (dashboards s))) eqn:E; [|done].
    apply (is_fresh (dom (dashboards s))), elem_of_dom. eauto. }
  destruct (CreateParams.user_id params); [|done].
  destruct (DashboardService.any _); run_store;
    unfold DashboardManager.create_domain_dashboard, version_in in *; simpl;
    by rewrite lookup_insert_ne.
Qed.

Lemma update_version_in user_id params s dashboard_id v :
  version_in s dashboard_id = Some v →
  version_in (DashboardService.update user_id params s).2 dashboard_id
  = Some v
  ∨ version_in (DashboardService.update user_id params s).2 dashboard_id
    = Some (v + 1)%Z.
Proof.
  intros Hv.
  destruct (get_domain_dashboard_cases (Params.dashboard_id params)
              (Params.domain_id params) None s) as [[vo Hget]|Hget].
  2: { rewrite (update_not_found _ _ _ _ _ Hget). by left. }
  destruct (DashboardService.private_of_other vo user_id) eqn:Hgate.
  { rewrite (update_denied _ _ _ _ Hget Hgate). by left. }
  rewrite (update_allowed _ _ _ _ Hget Hgate).
  apply has_dashboard_lookup in Hget as (Hl & Hid & _).
  unfold version_in in *.
  destruct (option_truth _); run_store; rewrite Hid.
  - destruct (decide (Params.dashboard_id params = dashboard_id)) as [<-|Hne].
    + rewrite lookup_insert_eq. simpl. rewrite Hl in Hv.
      injection Hv as <-. by right.
    + rewrite !lookup_insert_ne by done. by left.
  - destruct (decide (Params.dashboard_id params = dashboard_id)) as [<-|Hne].
    + rewrite lookup_insert_eq. simpl. rewrite Hl in Hv. by left.
    + rewrite lookup_insert_ne by done. by left.
Qed.

Lemma revert_version_not_found user_id params s e s' :
  DashboardManager.get_domain_dashboard (VersionParams.dashboard_id params)
    (VersionParams.domain_id params) None s = (Raise e, s') →
  DashboardService.revert_version user_id params s = (Raise e, s').
Proof.
  intros Hget. unfold DashboardService.revert_version.
  by rewrite (bind_raise _ _ _ _ _ Hget).
Qed.

Lemma revert_version_in user_id params s dashboard_id v :
  version_in s dashboard_id = Some v →
  version_in (DashboardService.revert_version user_id params s).2
    dashboard_id = Some v
  ∨ version_in (DashboardService.revert_version user_id params s).2
      dashboard_id = Some (v + 1)%Z.
Proof.
  intros Hv.
  destruct (get_domain_dashboard_cases (VersionParams.dashboard_id params)
              (VersionParams.domain_id params) None s) as [[vo Hget]|Hget].
  2: { rewrite (revert_version_not_found _ _ _ _ _ Hget). by left. }
  destruct (DashboardService.private_of_other vo user_id) eqn:Hgate.
  { unfold DashboardService.revert_version.
    rewrite (bind_ok _ _ _ _ _ Hget). rewrite Hgate. by left. }
  destruct (get_version_cases (VersionParams.dashboard_id params)
              (VersionParams.version params)
              (VersionParams.domain_id params) None s)
    as [[version_vo Hver]|Hver].
  2: { unfold DashboardService.revert_version.
       rewrite (bind_ok _ _ _ _ _ Hget). rewrite Hgate.
       rewrite (bind_raise _ _ _ _ _ Hver). by left. }
  rewrite (revert_version_allowed _ _ _ _ _ Hget Hgate Hver).
  apply has_dashboard_lookup in Hget as (Hl & Hid & _).
  unfold version_in in *. run_store. rewrite Hid.
  destruct (decide (VersionParams.dashboard_id params = dashboard_id))
    as [<-|Hne].
  - rewrite lookup_insert_eq. simpl. rewrite Hl in Hv.
    injection Hv as <-. by right.
  - rewrite !lookup_insert_ne by done. by left.
Qed.

Lemma delete_version_dashboards user_id params s :
  dashboards (DashboardService.delete_version user_id params s).2
  = dashboards s.
Proof.
  destruct (get_domain_dashboard_cases (VersionParams.dashboard_id params)
              (VersionParams.domain_id params) None s) as [[vo Hget]|Hget].
  2: { unfold DashboardService.delete_version.
       by rewrite (bind_raise _ _ _ _ _ Hget). }
  destruct (DashboardService.private_of_other vo user_id) eqn:Hgate.
  { unfold DashboardService.delete_version.
    rewrite (bind_ok _ _ _ _ _ Hget). by rewrite Hgate. }
  rewrite (delete_version_allowed _ _ _ _ Hget Hgate).
  case_bool_decide; [done|]. apply manager_delete_version_dashboards.
Qed.

Lemma get_store user_id params s :
  (DashboardService.get user_id params s).2 = s.
Proof.
  unfold DashboardService.get.
  destruct (get_domain_dashboard_cases (Params.dashboard_id params)
              (Params.domain_id params) (Params.only params) s)
    as [[vo Hget]|Hget].
  2: { by rewrite (bind_raise _ _ _ _ _ Hget). }
  rewrite (bind_ok _ _ _ _ _
             (Hget : DashboardManager.get_domain_dashboard _ _
                       (Params.only params) s = _)).
  by destruct (DashboardService.private_of_other _ _).
Qed.

Lemma service_get_version_store user_id params s :
  (DashboardService.get_version user_id params s).2 = s.
Proof.
  unfold DashboardService.get_version.
  destruct (get_domain_dashboard_cases (VersionParams.dashboard_id params)
              (VersionParams.domain_id params) None s) as [[vo Hget]|Hget].
  2: { by rewrite (bind_raise _ _ _ _ _ Hget). }
  rewrite (bind_ok _ _ _ _ _ Hget).
  destruct (DashboardService.private_of_other _ _); [done|].
  apply get_version_store.
Qed.

Lemma list_versions_store `{DocumentStore} user_id params s :
  (DashboardService.list_versions user_id params s).2 = s.
Proof.
  unfold DashboardService.list_versions.
  cbv [mbind M_bind DashboardVersionManager.list_versions gets].
  destruct (query_versions _ _) as [vos total].
  destruct (get_domain_dashboard_cases (Params.dashboard_id params)
              (Params.domain_id params) None s) as [[vo Hget]|Hget].
  2: { by rewrite Hget. }
  unfold has_dashboard in Hget. rewrite Hget.
  by destruct (DashboardService.private_of_other _ _).
Qed.

(** One call: the counter of a stored record stays, or goes up by one, and
    it goes up under [update] and [revert_version] only. *)
Lemma exec_version_in `{DocumentStore} op s dashboard_id v :
  version_in s dashboard_id = Some v →
  version_in (exec op s) dashboard_id = Some v
  ∨ (is_update_or_revert op = true
     ∧ version_in (exec op s) dashboard_id = Some (v + 1)%Z).
Proof.
  intros Hv. destruct op as [p|u p|u p|u p|u p|u p|u p|u p|u p]; simpl.
  - left. by apply create_version_in.
  - destruct (update_version_in u p s _ _ Hv); auto.
  - destruct (revert_version_in u p s _ _ Hv); auto.
  - left. unfold version_in. by rewrite delete_version_dashboards.
  - left. by rewrite get_store.
  - left. by rewrite service_get_version_store.
  - left. by rewrite list_versions_store.
  - by left.
  - left. unfold DashboardService.stat. by destruct (ListParams.query p).
Qed.

Lemma exec_all_version_in `{DocumentStore} ops s dashboard_id v :
  version_in s dashboard_id = Some v →
  ∃ v', version_in (exec_all ops s) dashboard_id = Some v' ∧ (v ≤ v')%Z.
Proof.
  revert s v. induction ops as [|op ops IH]; intros s v Hv.
  - exists v. split; [done|lia].
  - destruct (exec_version_in op s _ _ Hv) as [Hs|[_ Hs]];
      destruct (IH _ _ Hs) as (v' & Hv' & Hle);
      exists v'; (split; [done|lia]).
Qed.

(** C6: along any sequence of [create], [update], [revert_version],
    [delete_version], [get], [get_version], [list_versions], [list] and
    [stat] calls, by any callers, the version counter of a stored record
    never goes down; a single call leaves it as it is or, if it is an
    [update] or a [revert_version], may add one to it. *)
Theorem version_never_decreases `{DocumentStore} (ops : list Op) (s : Store)
    (dashboard_id : string) (v : Z) :
  version_in s dashboard_id = Some v →
  (∃ v', version_in (exec_all ops s) dashboard_id = Some v' ∧ (v ≤ v')%Z)
  ∧ (∀ op,
       version_in (exec op s) dashboard_id = Some v
       ∨ (is_update_or_revert op = true
          ∧ version_in (exec op s) dashboard_id = Some (v + 1)%Z)).
Proof.
  intros Hv. split.
  - by apply exec_all_version_in.
  - intros op. by apply exec_version_in.
Qed.

(** ** Snapshots never run ahead of their record *)

Lemma bounded_insert ds vs k vo :
  snapshots_bounded (mkStore ds vs) →
  (∀ dashboard_vo, ds !! k = Some dashboard_vo →
     (Dashboard.version dashboard_vo ≤ Dashboard.version vo)%Z) →
  snapshots_bounded (mkStore (<[k := vo]> ds) vs).
Proof.
  intros Hs Hk version_vo Hin. simpl in *.
  destruct (Hs _ Hin) as (d & Hd & Hvd). simpl in Hd.
  destruct (decide (k = DashboardVersion.dashboard_id version_vo)) as [->|Hne].
  - exists vo. rewrite lookup_insert_eq. split; [done|].
    apply Hk in Hd. lia.
  - exists d. by rewrite lookup_insert_ne.
Qed.

Lemma bounded_append ds vs version_vo dashboard_vo :
  snapshots_bounded (mkStore ds vs) →
  ds !! DashboardVersion.dashboard_id version_vo = Some dashboard_vo →
  (DashboardVersion.version version_vo ≤ Dashboard.version dashboard_vo)%Z →
  snapshots_bounded (mkStore ds (vs ++ [version_vo])).
Proof.
  intros Hs Hk Hle vo Hin. simpl in *.
  apply elem_of_app in Hin as [Hin|Hin%list_elem_of_singleton].
  - by apply Hs.
  - subst. eauto.
Qed.

Lemma bounded_filter (P : DashboardVersion.t → Prop)
    `{!∀ vo, Decision (P vo)} ds vs :
  snapshots_bounded (mkStore ds vs) →
  snapshots_bounded (mkStore ds (filter P vs)).
Proof.
  intros Hs vo Hin. simpl in *.
  apply list_elem_of_filter in Hin as [_ Hin]. by apply Hs.
Qed.

Lemma bounded_delete ds vs k :
  snapshots_bounded (mkStore ds vs) →
  snapshots_bounded
    (mkStore (delete k ds)
       (filter (λ vo, DashboardVersion.dashboard_id vo ≠ k) vs)).
Proof.
  intros Hs vo Hin. simpl in *.
  apply list_elem_of_filter in Hin as [Hne Hin].
  destruct (Hs _ Hin) as (d & Hd & Hvd).
  exists d. by rewrite lookup_delete_ne.
Qed.

Lemma create_bounded params s :
  snapshots_bounded s →
  snapshots_bounded (DashboardService.create params s).2.
Proof.
  intros Hs. unfold DashboardService.create.
  assert (∀ d, dashboards s !! fresh (dom (dashboards s)) = Some d →
               (Dashboard.version d ≤ 0)%Z) as Hk.
  { intros d Hd. by apply elem_of_dom_2, is_fresh in Hd. }
  destruct s as [ds vs].
  destruct (CreateParams.user_id params); [|done].
  destruct (DashboardService.any _); run_store;
    unfold DashboardManager.create_domain_dashboard; store_fields.
  - eapply bounded_append; store_fields.
    + by apply bounded_insert.
    + by rewrite lookup_insert_eq.
    + done.
  - by apply bounded_insert.
Qed.

(** The store after the version was increased, the snapshot created and the
    patched record written. *)
Lemma versioned_bounded ds vs k dashboard_vo vo version_vo :
  snapshots_bounded (mkStore ds vs) →
  ds !! k = Some dashboard_vo →
  DashboardVersion.dashboard_id version_vo = k →
  DashboardVersion.version version_vo
  = (Dashboard.version dashboard_vo + 1)%Z →
  Dashboard.version vo = (Dashboard.version dashboard_vo + 1)%Z →
  snapshots_bounded
    (mkStore
       (<[k := vo]>
          (<[k := Dashboard.set_version (Dashboard.version dashboard_vo + 1)
                    dashboard_vo]> ds))
       (vs ++ [version_vo])).
Proof.
  intros Hs Hk Hid Hv Hvo. apply bounded_insert.
  2: { intros d. rewrite lookup_insert_eq. intros [= <-]. simpl. lia. }
  eapply bounded_append.
  - apply bounded_insert; [done|]. intros d. rewrite Hk.
    intros [= <-]. simpl. lia.
  - by rewrite Hid, lookup_insert_eq.
  - simpl. lia.
Qed.

Lemma update_bounded user_id params s :
  snapshots_bounded s →
  snapshots_bounded (DashboardService.update user_id params s).2.
Proof.
  intros Hs.
  destruct (get_domain_dashboard_cases (Params.dashboard_id params)
              (Params.domain_id params) None s) as [[vo Hget]|Hget].
  2: { by rewrite (update_not_found _ _ _ _ _ Hget). }
  destruct (DashboardService.private_of_other vo user_id) eqn:Hgate.
  { by rewrite (update_denied _ _ _ _ Hget Hgate). }
  rewrite (update_allowed _ _ _ _ Hget Hgate).
  apply has_dashboard_lookup in Hget as (Hl & Hid & _).
  destruct s as [ds vs]. simpl in Hl.
  destruct (option_truth _); run_store; rewrite Hid.
  - by apply (versioned_bounded _ _ _ vo).
  - apply bounded_insert; [done|]. intros d. rewrite Hl.
    intros [= <-]. simpl. lia.
Qed.

Lemma revert_version_bounded user_id params s :
  snapshots_bounded s →
  snapshots_bounded (DashboardService.revert_version user_id params s).2.
Proof.
  intros Hs.
  destruct (get_domain_dashboard_cases (VersionParams.dashboard_id params)
              (VersionParams.domain_id params) None s) as [[vo Hget]|Hget].
  2: { by rewrite (revert_version_not_found _ _ _ _ _ Hget). }
  destruct (DashboardService.private_of_other vo user_id) eqn:Hgate.
  { unfold DashboardService.revert_version.
    rewrite (bind_ok _ _ _ _ _ Hget). by rewrite Hgate. }
  destruct (get_version_cases (VersionParams.dashboard_id params)
              (VersionParams.version params)
              (VersionParams.domain_id params) None s)
    as [[version_vo Hver]|Hver].
  2: { unfold DashboardService.revert_version.
       rewrite (bind_ok _ _ _ _ _ Hget). rewrite Hgate.
       by rewrite (bind_raise _ _ _ _ _ Hver). }
  rewrite (revert_version_allowed _ _ _ _ _ Hget Hgate Hver).
  apply has_dashboard_lookup in Hget as (Hl & Hid & _).
  destruct s as [ds vs]. simpl in Hl. run_store. rewrite Hid.
  by apply (versioned_bounded _ _ _ vo).
Qed.

Lemma delete_bounded user_id params s :
  snapshots_bounded s →
  snapshots_bounded (DashboardService.delete user_id params s).2.
Proof.
  intros Hs.
  destruct (get_domain_dashboard_cases (Params.dashboard_id params)
              (Params.domain_id params) None s) as [[vo Hget]|Hget].
  2: { unfold DashboardService.delete.
       by rewrite (bind_raise _ _ _ _ _ Hget). }
  destruct (DashboardService.private_of_other vo user_id) eqn:Hgate.
  { unfold DashboardService.delete.
    rewrite (bind_ok _ _ _ _ _ Hget). by rewrite Hgate. }
  rewrite (delete_allowed _ _ _ _ Hget Hgate).
  cbv [mbind M_bind DashboardVersionManager.filter_versions gets].
  rewrite delete_versions_guard. destruct s as [ds vs]. run_store.
  rewrite filter_versions_removed. by apply bounded_delete.
Qed.

Lemma delete_version_bounded user_id params s :
  snapshots_bounded s →
  snapshots_bounded (DashboardService.delete_version user_id params s).2.
Proof.
  intros Hs.
  destruct (get_domain_dashboard_cases (VersionParams.dashboard_id params)
              (VersionParams.domain_id params) None s) as [[vo Hget]|Hget].
  2: { unfold DashboardService.delete_version.
       by rewrite (bind_raise _ _ _ _ _ Hget). }
  destruct (DashboardService.private_of_other vo user_id) eqn:Hgate.
  { unfold DashboardService.delete_version.
    rewrite (bind_ok _ _ _ _ _ Hget). by rewrite Hgate. }
  rewrite (delete_version_allowed _ _ _ _ Hget Hgate).
  case_bool_decide; [done|].
  unfold DashboardVersionManager.delete_version.
  cbv [mbind M_bind DashboardVersionManager.get_version].
  destruct s as [ds vs].
  destruct (dashboards _ !! _) as [d|]; [case_decide; [done|]|];
    (destruct (List.find _ _); [|done]); run_store;
    by apply bounded_filter.
Qed.

Lemma reachable_bounded s : reachable s → snapshots_bounded s.
Proof.
  induction 1 as [|p s _ IH|u p s _ IH|u p s _ IH|u p s _ IH|u p s _ IH].
  - by intros vo Hin%elem_of_nil.
  - by apply create_bounded.
  - by apply update_bounded.
  - by apply delete_bounded.
  - by apply delete_version_bounded.
  - by apply revert_version_bounded.
Qed.

Lemma get_version_bounded s dashboard_id version domain_id only version_vo
    dashboard_vo :
  snapshots_bounded s →
  has_dashboard s dashboard_id domain_id dashboard_vo →
  DashboardVersionManager.get_version dashboard_id version domain_id only s
  = (Ok version_vo, s) →
  (version ≤ Dashboard.version dashboard_vo)%Z.
Proof.
  intros Hs (Hl & _)%has_dashboard_lookup.
  unfold DashboardVersionManager.get_version.
  destruct (List.find _ _) as [vo|] eqn:Hfind; [|done]. intros [= ->].
  apply find_some in Hfind as [Hin Hvo]. apply list_elem_of_In in Hin.
  apply bool_decide_eq_true in Hvo as (Hid & Hv & _).
  destruct (Hs _ Hin) as (d & Hd & Hle).
  rewrite Hid, Hl in Hd. injection Hd as <-. lia.
Qed.

(** ** Reverting to a version *)

(** C4, as amended: for a dashboard the caller passes the access gate of
    and a snapshot that exists at version [v], [revert_version] gives the
    record the snapshot's three version-bearing fields, moves the version
    counter one up, and appends a snapshot with the reverted content at the
    new version; the counter ends above its old value, so it is never set
    back to a [v] at or below that value, and in a store the service has
    brought about from the empty one every snapshot is at such a [v]. *)
Theorem revert_version_moves_forward user_id params s dashboard_vo
    version_vo :
  has_dashboard s (VersionParams.dashboard_id params)
    (VersionParams.domain_id params) dashboard_vo →
  DashboardService.private_of_other dashboard_vo user_id = false →
  DashboardVersionManager.get_version (VersionParams.dashboard_id params)
    (VersionParams.version params) (VersionParams.domain_id params) None s
  = (Ok version_vo, s) →
  ∃ vo s',
    DashboardService.revert_version user_id params s = (Ok vo, s')
    ∧ dashboards s' !! VersionParams.dashboard_id params = Some vo
    ∧ Dashboard.layouts vo = DashboardVersion.layouts version_vo
    ∧ Dashboard.variables vo = DashboardVersion.variables version_vo
    ∧ Dashboard.variables_schema vo
      = DashboardVersion.variables_schema version_vo
    ∧ Dashboard.version vo = (Dashboard.version dashboard_vo + 1)%Z
    ∧ dashboard_versions s'
      = dashboard_versions s
        ++ [DashboardVersion.mk (VersionParams.dashboard_id params)
              (Dashboard.version vo) (DashboardVersion.layouts version_vo)
              (DashboardVersion.variables version_vo) ∅
              (DashboardVersion.variables_schema version_vo)
              (VersionParams.domain_id params)]
    ∧ (Dashboard.version dashboard_vo < Dashboard.version vo)%Z
    ∧ ((VersionParams.version params ≤ Dashboard.version dashboard_vo)%Z →
       Dashboard.version vo ≠ VersionParams.version params)
    ∧ (reachable s → Dashboard.version vo ≠ VersionParams.version params).
Proof.
  intros Hget Hgate Hver.
  rewrite (revert_version_allowed _ _ _ _ _ Hget Hgate Hver).
  assert (reachable s →
          (VersionParams.version params ≤ Dashboard.version dashboard_vo)%Z)
    as Hreach.
  { intros Hs%reachable_bounded. by eapply get_version_bounded. }
  apply has_dashboard_lookup in Hget as (_ & Hid & Hdom).
  cbv zeta. do 2 eexists. split; [reflexivity|]. simpl.
  rewrite Hid, Hdom, lookup_insert_eq.
  repeat split; try lia. intros Hs%Hreach. lia.
Qed.

(** ** The claims at the sample store *)

Lemma sample_has_dash1 :
  has_dashboard Sample.store "dash-1" "domain-1" Sample.dash1.
Proof. by vm_compute. Defined.

Lemma sample_has_dash2 :
  has_dashboard Sample.store "dash-2" "domain-1" Sample.dash2.
Proof. by vm_compute. Defined.

(** C1 as stated fails twice: clearing [layouts] changes the field, the
    record is stored with the empty list, and no snapshot is made nor the
    version increased; and a caller who is not the owner of a PRIVATE
    record is refused, whatever the patch changes. *)
Lemma update_changed_field_without_version :
  (has_dashboard Sample.store "dash-2" "domain-1" Sample.dash2
   ∧ changes_version_field Sample.dash2 (Sample.clear_layouts "dash-2")
   ∧ Dashboard.layouts
       <$> dashboards
             (DashboardService.update (Some "u2")
                (Sample.clear_layouts "dash-2") Sample.store).2 !! "dash-2"
     = Some []
   ∧ dashboard_versions
       (DashboardService.update (Some "u2")
          (Sample.clear_layouts "dash-2") Sample.store).2
     = dashboard_versions Sample.store
   ∧ version_in
       (DashboardService.update (Some "u2")
          (Sample.clear_layouts "dash-2") Sample.store).2 "dash-2"
     = Some (Dashboard.version Sample.dash2))
  ∧ (has_dashboard Sample.store "dash-1" "domain-1" Sample.dash1
     ∧ changes_version_field Sample.dash1 (Sample.new_layouts "dash-1")
     ∧ DashboardService.update (Some "u2") (Sample.new_layouts "dash-1")
         Sample.store = (Raise ERROR_PERMISSION_DENIED, Sample.store)).
Proof.
  split; (split; [by vm_compute|]);
    (split; [left; eexists; split; [reflexivity|discriminate]|]).
  - repeat split; by vm_compute.
  - by vm_compute.
Qed.

Lemma update_creates_one_version_witness :
  ∃ vo version_vo s',
    DashboardService.update (Some "u1") (Sample.new_layouts "dash-1")
      Sample.store = (Ok vo, s')
    ∧ DashboardService.update (Some "u1") (Sample.new_layouts "dash-1")
        Sample.store
      = (vo ← DashboardManager.increase_version Sample.dash1;
         DashboardVersionManager.create_version_by_domain_dashboard_vo
           vo (Params.layouts (Sample.new_layouts "dash-1"))
           (Params.variables (Sample.new_layouts "dash-1"))
           (Params.variables_schema (Sample.new_layouts "dash-1")) ;;
         DashboardManager.update_domain_dashboard_by_vo
           (update_params Sample.dash1 (Sample.new_layouts "dash-1")) vo)
          Sample.store
    ∧ dashboards s' !! Params.dashboard_id (Sample.new_layouts "dash-1")
      = Some vo
    ∧ Dashboard.version vo = (Dashboard.version Sample.dash1 + 1)%Z
    ∧ dashboard_versions s' = dashboard_versions Sample.store ++ [version_vo]
    ∧ DashboardVersion.dashboard_id version_vo
      = Params.dashboard_id (Sample.new_layouts "dash-1")
    ∧ DashboardVersion.version version_vo = Dashboard.version vo.
Proof.
  apply (update_creates_one_version (Some "u1") (Sample.new_layouts "dash-1")
           Sample.store Sample.dash1).
  - exact sample_has_dash1.
  - reflexivity.
  - left. exists [VStr "w9"]. repeat split; discriminate.
Defined.

Lemma update_unchanged_fields_no_version_witness :
  dashboard_versions
    (DashboardService.update (Some "u1") Sample.same_layouts Sample.store).2
  = dashboard_versions Sample.store
  ∧ version_in
      (DashboardService.update (Some "u1") Sample.same_layouts
         Sample.store).2 (Params.dashboard_id Sample.same_layouts)
    = Some (Dashboard.version Sample.dash1).
Proof.
  apply (update_unchanged_fields_no_version (Some "u1") Sample.same_layouts
           Sample.store Sample.dash1).
  - exact sample_has_dash1.
  - repeat split; intros x [= <-]; reflexivity.
Defined.

Lemma update_empty_fields_no_version_witness :
  DashboardService._has_version_key_in_params Sample.dash2
    (update_params Sample.dash2 (Sample.clear_layouts "dash-2"))
    version_change_keys = Some false
  ∧ dashboard_versions
      (DashboardService.update (Some "u2")
         (Sample.clear_layouts "dash-2") Sample.store).2
    = dashboard_versions Sample.store
  ∧ version_in
      (DashboardService.update (Some "u2")
         (Sample.clear_layouts "dash-2") Sample.store).2
      (Params.dashboard_id (Sample.clear_layouts "dash-2"))
    = Some (Dashboard.version Sample.dash2).
Proof.
  apply (update_empty_fields_no_version (Some "u2")
           (Sample.clear_layouts "dash-2") Sample.store Sample.dash2).
  - exact sample_has_dash2.
  - left. by exists [].
  - repeat split; intros x [= <-]; reflexivity.
Defined.

(** C3 as stated fails: at the current version of a PRIVATE record, a
    caller who is not the owner gets [ERROR_PERMISSION_DENIED], not
    [ERROR_LATEST_VERSION]. *)
Lemma delete_version_latest_denied :
  has_dashboard Sample.store "dash-1" "domain-1" Sample.dash1
  ∧ VersionParams.version (Sample.vparams "dash-1" 3)
    = Dashboard.version Sample.dash1
  ∧ DashboardService.delete_version (Some "u2") (Sample.vparams "dash-1" 3)
      Sample.store = (Raise ERROR_PERMISSION_DENIED, Sample.store)
  ∧ DashboardService.delete_version (Some "u2") (Sample.vparams "dash-1" 3)
      Sample.store
    ≠ (Raise (ERROR_LATEST_VERSION 3), Sample.store).
Proof. repeat split; by vm_compute. Qed.

Lemma delete_version_latest_witness :
  DashboardService.delete_version (Some "u1") (Sample.vparams "dash-1" 3)
    Sample.store = (Raise (ERROR_LATEST_VERSION 3), Sample.store)
  ∧ DashboardService.delete_version (Some "u1") (Sample.vparams "dash-1" 2)
      Sample.store
    = DashboardVersionManager.delete_version "dash-1" 2 "domain-1"
        Sample.store.
Proof.
  split.
  - apply (proj1 (delete_version_latest (Some "u1")
                    (Sample.vparams "dash-1" 3) Sample.store Sample.dash1
                    sample_has_dash1 eq_refl)).
    reflexivity.
  - apply (proj2 (delete_version_latest (Some "u1")
                    (Sample.vparams "dash-1" 2) Sample.store Sample.dash1
                    sample_has_dash1 eq_refl)).
    discriminate.
Defined.

(** C4 as stated fails: on a PRIVATE record a caller who is not the owner
    is refused, and neither the record nor the snapshots change. *)
Lemma revert_version_denied :
  has_dashboard Sample.store "dash-1" "domain-1" Sample.dash1
  ∧ DashboardVersionManager.get_version "dash-1" 2 "domain-1" None
      Sample.store = (Ok Sample.dash1_v2, Sample.store)
  ∧ DashboardService.revert_version (Some "u2") (Sample.vparams "dash-1" 2)
      Sample.store = (Raise ERROR_PERMISSION_DENIED, Sample.store)
  ∧ Dashboard.layouts Sample.dash1
    ≠ DashboardVersion.layouts Sample.dash1_v2.
Proof. repeat split; by vm_compute. Qed.

Lemma revert_version_moves_forward_witness :
  (∃ vo s',
     DashboardService.revert_version (Some "u1") (Sample.vparams "dash-1" 2)
       Sample.store = (Ok vo, s')
     ∧ dashboards s' !! "dash-1" = Some vo
     ∧ Dashboard.layouts vo = [VStr "w0"]
     ∧ Dashboard.version vo = 4%Z
     ∧ dashboard_versions s'
       = dashboard_versions Sample.store
         ++ [DashboardVersion.mk "dash-1" 4 [VStr "w0"] ∅ ∅ ∅ "domain-1"]
     ∧ Dashboard.version vo ≠ 2%Z)
  ∧ (∃ vo s',
       DashboardService.revert_version (Some "u2") (Sample.vparams "0" 1)
         Sample.built = (Ok vo, s')
       ∧ Dashboard.layouts vo = Dashboard.layouts Sample.built_dash
       ∧ Dashboard.version vo ≠ 1%Z).
Proof.
  split.
  - destruct (revert_version_moves_forward (Some "u1")
                (Sample.vparams "dash-1" 2) Sample.store Sample.dash1
                Sample.dash1_v2 sample_has_dash1 eq_refl eq_refl)
      as (vo & s' & Hrun & Hstored & Hl & _ & _ & Hv & Hvs & _ & Hne & _).
    exists vo, s'. rewrite Hv in Hvs. simpl in *.
    repeat split; try done. apply Hne. done.
  - assert (has_dashboard Sample.built "0" "domain-1" Sample.built_dash)
      as Hget by (by vm_compute).
    assert (DashboardVersionManager.get_version "0" 1 "domain-1" None
              Sample.built = (Ok Sample.built_v1, Sample.built))
      as Hver by (by vm_compute).
    destruct (revert_version_moves_forward (Some "u2")
                (Sample.vparams "0" 1) Sample.built Sample.built_dash
                Sample.built_v1 Hget eq_refl Hver)
      as (vo & s' & Hrun & _ & Hl & _ & _ & _ & _ & _ & _ & Hreach).
    exists vo, s'. repeat split; [done|done|].
    apply Hreach, reachable_update, reachable_create, reachable_empty.
Defined.

Lemma private_gate_witness :
  (DashboardService.update (Some "u2") (Sample.params "dash-1") Sample.store
   = (Raise ERROR_PERMISSION_DENIED, Sample.store)
   ∧ DashboardService.delete (Some "u2") (Sample.params "dash-1")
       Sample.store = (Raise ERROR_PERMISSION_DENIED, Sample.store)
   ∧ DashboardService.get (Some "u2") (Sample.params "dash-1") Sample.store
     = (Raise ERROR_PERMISSION_DENIED, Sample.store)
   ∧ DashboardService.delete_version (Some "u2") (Sample.vparams "dash-1" 2)
       Sample.store = (Raise ERROR_PERMISSION_DENIED, Sample.store)
   ∧ DashboardService.revert_version (Some "u2") (Sample.vparams "dash-1" 2)
       Sample.store = (Raise ERROR_PERMISSION_DENIED, Sample.store)
   ∧ DashboardService.get_version (Some "u2") (Sample.vparams "dash-1" 2)
       Sample.store = (Raise ERROR_PERMISSION_DENIED, Sample.store)
   ∧ @DashboardService.list_versions Sample.document_store (Some "u2")
       (Sample.params "dash-1") Sample.store
     = (Raise ERROR_PERMISSION_DENIED, Sample.store))
  ∧ (¬ denied (DashboardService.update (Some "u1") (Sample.params "dash-1")
                 Sample.store)
     ∧ ¬ denied (DashboardService.delete (Some "u1") (Sample.params "dash-1")
                   Sample.store)
     ∧ ¬ denied (DashboardService.get (Some "u1") (Sample.params "dash-1")
                   Sample.store)
     ∧ ¬ denied (DashboardService.delete_version (Some "u1")
                   (Sample.vparams "dash-1" 2) Sample.store)
     ∧ ¬ denied (DashboardService.revert_version (Some "u1")
                   (Sample.vparams "dash-1" 2) Sample.store)
     ∧ ¬ denied (DashboardService.get_version (Some "u1")
                   (Sample.vparams "dash-1" 2) Sample.store)
     ∧ ¬ denied (@DashboardService.list_versions Sample.document_store
                   (Some "u1") (Sample.params "dash-1") Sample.store)).
Proof.
  split.
  - apply (proj1 (@private_gate Sample.document_store (Some "u2")
                    Sample.store Sample.dash1 (Sample.params "dash-1")
                    (Sample.vparams "dash-1" 2) sample_has_dash1
                    sample_has_dash1)).
    + reflexivity.
    + discriminate.
  - apply (proj2 (@private_gate Sample.document_store (Some "u1")
                    Sample.store Sample.dash1 (Sample.params "dash-1")
                    (Sample.vparams "dash-1" 2) sample_has_dash1
                    sample_has_dash1)).
    right. reflexivity.
Defined.

Lemma version_never_decreases_witness :
  (∃ v', version_in (@exec_all Sample.document_store sample_run Sample.store)
           "dash-1" = Some v' ∧ (3 ≤ v')%Z)
  ∧ (∀ op,
       version_in (@exec Sample.document_store op Sample.store) "dash-1"
       = Some 3%Z
       ∨ (is_update_or_revert op = true
          ∧ version_in (@exec Sample.document_store op Sample.store)
              "dash-1" = Some (3 + 1)%Z)).
Proof.
  apply (@version_never_decreases Sample.document_store sample_run
           Sample.store "dash-1" 3).
  reflexivity.
Defined.

Lemma update_merges_settings_witness :
  let merged :=
    DashboardService._merge_settings (Dashboard.settings Sample.dash1)
      settings_bc in
  (∀ old, Dashboard.settings Sample.dash1 = Some old → old ≠ ∅ →
     merged = settings_bc ∪ old
     ∧ ∀ k, (is_Some (settings_bc !! k) → merged !! k = settings_bc !! k)
            ∧ (settings_bc !! k = None → merged !! k = old !! k))
  ∧ (Dashboard.settings Sample.dash1 = None
     ∨ Dashboard.settings Sample.dash1 = Some ∅ → merged = settings_bc)
  ∧ (∀ vo s',
       DashboardService.update (Some "u1") Sample.new_settings Sample.store
       = (Ok vo, s') →
       Dashboard.settings vo = Some merged
       ∧ dashboards s' !! Params.dashboard_id Sample.new_settings = Some vo)
  ∧ (DashboardService.private_of_other Sample.dash1 (Some "u1") = false →
     ∃ vo s',
       DashboardService.update (Some "u1") Sample.new_settings Sample.store
       = (Ok vo, s'))
  ∧ DashboardService._merge_settings (Some settings_ab) settings_bc
    = settings_abc
  ∧ DashboardService._merge_settings None settings_x = settings_x
  ∧ DashboardService._merge_settings (Some ∅) settings_x = settings_x.
Proof.
  apply (update_merges_settings (Some "u1") Sample.new_settings Sample.store
           Sample.dash1 settings_bc).
  - exact sample_has_dash1.
  - reflexivity.
Defined.

(** C8 as stated fails: on a PRIVATE record a caller who is not the owner is
    refused; the record and its snapshots are still there for the owner. *)
Lemma delete_denied_keeps_all :
  has_dashboard Sample.store "dash-1" "domain-1" Sample.dash1
  ∧ DashboardService.delete (Some "u2") (Sample.params "dash-1")
      Sample.store = (Raise ERROR_PERMISSION_DENIED, Sample.store)
  ∧ DashboardService.get (Some "u1") (Sample.params "dash-1") Sample.store
    = (Ok Sample.dash1, Sample.store)
  ∧ DashboardService.get_version (Some "u1") (Sample.vparams "dash-1" 2)
      Sample.store = (Ok Sample.dash1_v2, Sample.store).
Proof. repeat split; by vm_compute. Qed.

Lemma delete_cascades_witness :
  ∃ s',
    DashboardService.delete (Some "u1") (Sample.params "dash-1") Sample.store
    = (Ok tt, s')
    ∧ dashboards s' = {[ "dash-2" := Sample.dash2 ]}
    ∧ dashboard_versions s' = [Sample.dash2_v1]
    ∧ DashboardService.get (Some "u1") (Sample.params "dash-1") s'
      = (Raise ERROR_NOT_FOUND, s')
    ∧ DashboardService.get_version (Some "u1") (Sample.vparams "dash-1" 2) s'
      = (Raise ERROR_NOT_FOUND, s').
Proof.
  destruct (delete_cascades (Some "u1") (Sample.params "dash-1")
              Sample.store Sample.dash1 sample_has_dash1 eq_refl)
    as (s' & Hrun & _ & Hds & Hvs & _ & _ & Hget & Hver).
  exists s'. split; [done|]. split; [|split; [|split]].
  - rewrite Hds. by vm_compute.
  - rewrite Hvs. by vm_compute.
  - by apply Hget.
  - by apply Hver.
Defined.

(** * Further properties of the service *)

(** ** Creating a dashboard *)

Lemma any_create_version_key params :
  DashboardService.any
    (filter (λ key, key ∈ CreateParams.keys params)
       ["layouts"; "variables"; "variables_schema"])
  = bool_decide (create_has_version_key params).
Proof.
  unfold create_has_version_key, CreateParams.keys, Params.key.
  destruct (CreateParams.layouts params), (CreateParams.variables params),
    (CreateParams.variables_schema params), (CreateParams.settings params),
    (CreateParams.labels params), (CreateParams.tags params);
    by vm_compute.
Qed.

(** X1: [create] without a [user_id] raises [ERROR_REQUIRED_PARAMETER]
    and writes nothing. With one it returns the record the manager made
    and appends one snapshot, at that record's version and with the
    version-bearing fields of [params], exactly when [params] has a
    version-bearing key: the keys are tested, not the values, so an empty
    value counts as well; without such a key the snapshots stay. *)
Theorem create_snapshot_on_key params s :
  (CreateParams.user_id params = None →
   DashboardService.create params s
   = (Raise (ERROR_REQUIRED_PARAMETER "user_id"), s))
  ∧ (is_Some (CreateParams.user_id params) →
     ∃ dashboard_vo s',
       DashboardService.create params s = (Ok dashboard_vo, s')
       ∧ dashboards s' !! Dashboard.dashboard_id dashboard_vo
         = Some dashboard_vo
       ∧ (create_has_version_key params →
          dashboard_versions s'
          = dashboard_versions s
            ++ [DashboardVersion.mk (Dashboard.dashboard_id dashboard_vo)
                  (Dashboard.version dashboard_vo)
                  (default [] (CreateParams.layouts params))
                  (default ∅ (CreateParams.variables params)) ∅
                  (default ∅ (CreateParams.variables_schema params))
                  (CreateParams.domain_id params)])
       ∧ (¬ create_has_version_key params →
          dashboard_versions s' = dashboard_versions s)).
Proof.
  unfold DashboardService.create. rewrite any_create_version_key. split.
  { by intros ->. }
  intros [user_id ->]. cbn [check_required].
  case_bool_decide as Hkey.
  - do 2 eexists. split; [reflexivity|]. simpl.
    split; [by rewrite lookup_insert_eq|]. split; [|done]. intros _.
    by destruct (CreateParams.layouts params),
      (CreateParams.variables params),
      (CreateParams.variables_schema params).
  - do 2 eexists. split; [reflexivity|]. simpl.
    split; [by rewrite lookup_insert_eq|done].
Qed.

(** ** The three answers of the version test *)

Lemma elem_of_key {A} k k' (o : option A) : k ∈ Params.key k' o → k = k'.
Proof.
  destruct o; simpl; [|by intros ?%elem_of_nil].
  by intros ->%list_elem_of_singleton.
Qed.

(** A version-bearing key among the keys of a patch is one of the three
    version-bearing fields being present. *)
Lemma version_key_present params k :
  k ∈ Params.keys params → k ∈ version_change_keys →
  has_version_key params.
Proof.
  unfold Params.keys, version_change_keys, has_version_key.
  destruct (Params.layouts params); [by left; eauto|].
  destruct (Params.variables params); [by right; left; eauto|].
  destruct (Params.variables_schema params); [by right; right; eauto|].
  intros Hk Hv. exfalso. unfold Params.key at 3 4 6 in Hk.
  rewrite !elem_of_app in Hk.
  repeat match goal with H : _ ∨ _ |- _ => destruct H as [H|H] end;
    try (by apply elem_of_nil in Hk);
    try apply elem_of_key in Hk; subst; set_solver.
Qed.

(** X2: [_has_version_key_in_params] falls off its end ([None]) exactly
    when the patch has no version-bearing key; it answers [True] exactly
    when a version-bearing field of the patch is non-empty and differs from
    the record's; with a key present and no such field it answers [False]. *)
Theorem has_version_key_in_params_answers dashboard_vo params :
  (DashboardService._has_version_key_in_params dashboard_vo params
     version_change_keys = None
   ↔ ¬ has_version_key params)
  ∧ (DashboardService._has_version_key_in_params dashboard_vo params
       version_change_keys = Some true
     ↔ sets_version_field dashboard_vo params)
  ∧ (DashboardService._has_version_key_in_params dashboard_vo params
       version_change_keys = Some false
     ↔ has_version_key params ∧ ¬ sets_version_field dashboard_vo params).
Proof.
  pose proof (has_version_key_in_params_true dashboard_vo params) as Htrue.
  assert (DashboardService._has_version_key_in_params dashboard_vo params
            version_change_keys = None ↔ ¬ has_version_key params) as Hnone.
  { unfold DashboardService._has_version_key_in_params. split.
    - intros Hnone Hkey. apply any_version_key in Hkey.
      rewrite Hkey in Hnone.
      by repeat match goal with
                | H : context [if ?b then _ else _] |- _ => destruct b
                end.
    - intros Hkey.
      destruct (DashboardService.any _) eqn:Hany; [|done].
      exfalso. apply Hkey.
      unfold DashboardService.any in Hany.
      apply existsb_exists in Hany as (k & Hk & _).
      apply list_elem_of_In, list_elem_of_filter in Hk as [Hv Hk].
      by apply (version_key_present _ k). }
  split; [done|].
  destruct (DashboardService._has_version_key_in_params dashboard_vo params
              version_change_keys) as [[]|] eqn:E; simpl in Htrue.
  - split; [tauto|]. split; [done|]. intros [_ Hn]. exfalso. tauto.
  - split.
    + split; [done|]. intros Hs. apply Htrue in Hs. done.
    + split; [|done]. intros _. split.
      * destruct (decide (has_version_key params)) as [|Hn]; [done|].
        apply Hnone in Hn. done.
      * intros Hs. apply Htrue in Hs. done.
  - split.
    + split; [done|]. intros Hs. apply Htrue in Hs. done.
    + split; [done|]. intros [Hkey _]. by apply Hnone in Hkey.
Qed.

(** ** Settings merge as an operation on settings *)

Lemma merge_settings_cases (old : option (gmap string Value))
    (new : gmap string Value) :
  DashboardService._merge_settings old new = new ∪ default ∅ old.
Proof.
  unfold DashboardService._merge_settings.
  destruct old as [m|]; simpl; [|by rewrite (right_id ∅ (∪))].
  destruct (dict_truth m) eqn:E; [done|].
  apply dict_truth_false in E as ->. by rewrite (right_id ∅ (∪)).
Qed.

(** X3: two settings merges in a row are one merge with the later mapping
    laid over the earlier one, and merging the same mapping again changes
    nothing. *)
Theorem merge_settings_compose (old : option (gmap string Value))
    (new1 new2 : gmap string Value) :
  DashboardService._merge_settings
    (Some (DashboardService._merge_settings old new1)) new2
  = DashboardService._merge_settings old (new2 ∪ new1)
  ∧ DashboardService._merge_settings
      (Some (DashboardService._merge_settings old new1)) new1
    = DashboardService._merge_settings old new1.
Proof.
  rewrite !merge_settings_cases. simpl.
  split; [by rewrite (assoc (∪))|].
  by rewrite (assoc (∪)), (idemp (∪)).
Qed.

(** X4: a settings merge never drops a key: the merged mapping has exactly
    the keys of the incoming and of the existing mapping, so an update
    cannot remove a setting, and an empty incoming mapping gives back the
    existing settings unchanged. *)
Theorem merge_settings_keeps_keys (old : option (gmap string Value))
    (new : gmap string Value) :
  dom (DashboardService._merge_settings old new)
  = dom new ∪ dom (default ∅ old)
  ∧ (∀ k v, default ∅ old !! k = Some v → new !! k = None →
       DashboardService._merge_settings old new !! k = Some v)
  ∧ DashboardService._merge_settings old ∅ = default ∅ old.
Proof.
  rewrite !merge_settings_cases. split; [by rewrite dom_union_L|].
  split; [|by rewrite (left_id ∅ (∪))].
  intros k v Hold Hnew. by rewrite lookup_union_r.
Qed.

(** ** Repeating an update *)

Lemma merge_settings_again (old : option (gmap string Value))
    (new : gmap string Value) :
  DashboardService._merge_settings
    (Some (DashboardService._merge_settings old new)) new
  = DashboardService._merge_settings old new.
Proof.
  rewrite !merge_settings_cases. simpl.
  by rewrite (assoc (∪)), (idemp (∪)).
Qed.

(** The record an update writes: the rewritten patch laid over the record
    at some version. *)
Lemma update_params_again dashboard_vo params z :
  update_params
    (DashboardManager.patch (update_params dashboard_vo params)
       (Dashboard.set_version z dashboard_vo)) params
  = update_params dashboard_vo params.
Proof.
  unfold update_params. destruct params as [i d v n l va st vs lb tg o q].
  destruct n as [n|], st as [st|];
    cbn -[DashboardService._merge_settings]; try done;
    by rewrite merge_settings_again.
Qed.

Lemma patch_again params dashboard_vo :
  DashboardManager.patch params (DashboardManager.patch params dashboard_vo)
  = DashboardManager.patch params dashboard_vo.
Proof.
  unfold DashboardManager.patch. simpl.
  by destruct (Params.name params), (Params.layouts params),
    (Params.variables params), (Params.settings params),
    (Params.variables_schema params), (Params.labels params),
    (Params.tags params).
Qed.

Lemma patched_keeps_version_fields params dashboard_vo :
  keeps_version_fields (DashboardManager.patch params dashboard_vo) params.
Proof.
  unfold keeps_version_fields, DashboardManager.patch. simpl.
  repeat split; by intros x ->.
Qed.

Lemma keeps_version_fields_update_params dashboard_vo vo params :
  keeps_version_fields dashboard_vo (update_params vo params)
  ↔ keeps_version_fields dashboard_vo params.
Proof.
  destruct (update_params_version_fields vo params) as (El & Ev & Es).
  unfold keeps_version_fields. by rewrite El, Ev, Es.
Qed.

Lemma keeps_version_fields_not_worthy dashboard_vo params :
  keeps_version_fields dashboard_vo params →
  option_truth
    (DashboardService._has_version_key_in_params dashboard_vo params
       version_change_keys) = false.
Proof.
  intros (Hl & Hv & Hs). apply not_true_is_false.
  rewrite has_version_key_in_params_true. unfold sets_version_field.
  naive_solver.
Qed.

(** X5: an update that returned is idempotent: the same call by the same
    caller on the store it left returns the same record and leaves that
    store as it is, so a retry creates no second snapshot and no second
    version. *)
Theorem update_again_changes_nothing user_id params s dashboard_vo s' :
  DashboardService.update user_id params s = (Ok dashboard_vo, s') →
  DashboardService.update user_id params s' = (Ok dashboard_vo, s').
Proof.
  intros Hrun.
  destruct (get_domain_dashboard_cases (Params.dashboard_id params)
              (Params.domain_id params) None s) as [[vo Hget]|Hget].
  2: { by rewrite (update_not_found _ _ _ _ _ Hget) in Hrun. }
  destruct (DashboardService.private_of_other vo user_id) eqn:Hgate.
  { by rewrite (update_denied _ _ _ _ Hget Hgate) in Hrun. }
  assert (∃ z, dashboard_vo
               = DashboardManager.patch (update_params vo params)
                   (Dashboard.set_version z vo)
          ∧ dashboards s' !! Params.dashboard_id params = Some dashboard_vo)
    as (z & Hvo & Hstored).
  { destruct (update_allowed_returns _ _ _ _ Hget Hgate)
      as (vo1 & s1 & Hrun1 & Hs1 & z & Hz).
    rewrite Hrun in Hrun1. injection Hrun1 as -> ->. eauto. }
  apply has_dashboard_lookup in Hget as (_ & Hid & Hdom).
  assert (has_dashboard s' (Params.dashboard_id params)
            (Params.domain_id params) dashboard_vo) as Hget'.
  { apply has_dashboard_lookup. split; [done|]. by rewrite Hvo. }
  assert (DashboardService.private_of_other dashboard_vo user_id = false)
    as Hgate' by (by rewrite Hvo).
  rewrite (update_allowed _ _ _ _ Hget' Hgate').
  rewrite keeps_version_fields_not_worthy.
  2: { apply keeps_version_fields_update_params. rewrite Hvo.
       apply keeps_version_fields_update_params with (vo := vo),
         patched_keeps_version_fields. }
  assert (DashboardManager.patch (update_params dashboard_vo params)
            dashboard_vo = dashboard_vo) as Hsame.
  { rewrite Hvo, update_params_again. apply patch_again. }
  run_store. rewrite Hsame.
  assert (Dashboard.dashboard_id dashboard_vo = Params.dashboard_id params)
    as -> by (by rewrite Hvo).
  rewrite insert_id by done. by destruct s'.
Qed.

(** ** Operations that only read, and operations on what is not there *)

(** X6: [get], [get_version], [list_versions], [list] and [stat] never
    write: whatever they are given and whether they return or raise, the
    store afterwards is the store before. *)
Theorem reads_never_write `{DocumentStore} (user_id : option string)
    (params : Params.t) (vparams : VersionParams.t)
    (lparams : ListParams.t) (s : Store) :
  (DashboardService.get user_id params s).2 = s
  ∧ (DashboardService.get_version user_id vparams s).2 = s
  ∧ (DashboardService.list_versions user_id params s).2 = s
  ∧ (DashboardService.list user_id lparams s).2 = s
  ∧ (DashboardService.stat user_id lparams s).2 = s.
Proof.
  split; [apply get_store|]. split; [apply service_get_version_store|].
  split; [apply list_versions_store|]. split; [done|].
  unfold DashboardService.stat. by destruct (ListParams.query lparams).
Qed.

Lemma no_dashboard_not_found s dashboard_id domain_id only :
  no_dashboard s dashboard_id domain_id →
  DashboardManager.get_domain_dashboard dashboard_id domain_id only s
  = (Raise ERROR_NOT_FOUND, s).
Proof.
  intros Hno. unfold DashboardManager.get_domain_dashboard.
  destruct (dashboards s !! dashboard_id) as [vo|] eqn:E; [|done].
  case_decide as Hvo; [|done]. destruct Hvo as [_ Hdom].
  by apply Hno in E.
Qed.

(** X7: on a [dashboard_id] under which the domain has no record, the id
    being unknown or the record being another domain's, every operation on
    one dashboard raises [ERROR_NOT_FOUND] and writes nothing, whoever
    calls. *)
Theorem missing_dashboard_not_found `{DocumentStore}
    (user_id : option string) (params : Params.t)
    (vparams : VersionParams.t) (s : Store) :
  no_dashboard s (Params.dashboard_id params) (Params.domain_id params) →
  no_dashboard s (VersionParams.dashboard_id vparams)
    (VersionParams.domain_id vparams) →
  DashboardService.update user_id params s = (Raise ERROR_NOT_FOUND, s)
  ∧ DashboardService.delete user_id params s = (Raise ERROR_NOT_FOUND, s)
  ∧ DashboardService.get user_id params s = (Raise ERROR_NOT_FOUND, s)
  ∧ DashboardService.delete_version user_id vparams s
    = (Raise ERROR_NOT_FOUND, s)
  ∧ DashboardService.revert_version user_id vparams s
    = (Raise ERROR_NOT_FOUND, s)
  ∧ DashboardService.get_version user_id vparams s
    = (Raise ERROR_NOT_FOUND, s)
  ∧ DashboardService.list_versions user_id params s
    = (Raise ERROR_NOT_FOUND, s).
Proof.
  intros Hno Hvno.
  pose proof (no_dashboard_not_found _ _ _ None Hno) as Hget.
  pose proof (no_dashboard_not_found _ _ _ (Params.only params) Hno)
    as Hgeto.
  pose proof (no_dashboard_not_found _ _ _ None Hvno) as Hvget.
  unfold DashboardService.update, DashboardService.delete,
    DashboardService.get, DashboardService.delete_version,
    DashboardService.revert_version, DashboardService.get_version,
    DashboardService.list_versions.
  repeat split;
    try (by rewrite (bind_raise _ _ _ _ _ Hget));
    try (by rewrite (bind_raise _ _ _ _ _ Hgeto));
    try (by rewrite (bind_raise _ _ _ _ _ Hvget)).
  cbv [mbind M_bind DashboardVersionManager.list_versions gets].
  destruct (query_versions _ _) as [vos total]. by rewrite Hget.
Qed.

Lemma no_version_not_found s dashboard_id version domain_id only :
  no_version s dashboard_id version domain_id →
  DashboardVersionManager.get_version dashboard_id version domain_id only s
  = (Raise ERROR_NOT_FOUND, s).
Proof.
  intros Hno. unfold DashboardVersionManager.get_version.
  destruct (List.find _ _) as [vo|] eqn:E; [|done].
  apply find_some in E as [Hin Hvo]. apply list_elem_of_In, Hno in Hin.
  congruence.
Qed.

(** X8: for a caller the gate lets through, asking for a version of which
    there is no snapshot raises [ERROR_NOT_FOUND] and writes nothing:
    [revert_version] looks the snapshot up before it increases the version,
    so the counter is not spent; [get_version] and, below the current
    version, [delete_version] fail the same way. *)
Theorem missing_version_not_found user_id params s dashboard_vo :
  has_dashboard s (VersionParams.dashboard_id params)
    (VersionParams.domain_id params) dashboard_vo →
  DashboardService.private_of_other dashboard_vo user_id = false →
  no_version s (VersionParams.dashboard_id params)
    (VersionParams.version params) (VersionParams.domain_id params) →
  DashboardService.revert_version user_id params s
  = (Raise ERROR_NOT_FOUND, s)
  ∧ DashboardService.get_version user_id params s
    = (Raise ERROR_NOT_FOUND, s)
  ∧ (VersionParams.version params ≠ Dashboard.version dashboard_vo →
     DashboardService.delete_version user_id params s
     = (Raise ERROR_NOT_FOUND, s)).
Proof.
  intros Hget Hgate Hno.
  pose proof (no_version_not_found _ _ _ _ None Hno) as Hver.
  pose proof (no_version_not_found _ _ _ _ (VersionParams.only params) Hno)
    as Hvero.
  split; [|split].
  - unfold DashboardService.revert_version.
    rewrite (bind_ok _ _ _ _ _ Hget). rewrite Hgate.
    by rewrite (bind_raise _ _ _ _ _ Hver).
  - unfold DashboardService.get_version.
    rewrite (bind_ok _ _ _ _ _ Hget). by rewrite Hgate.
  - intros Hv. rewrite (delete_version_allowed _ _ _ _ Hget Hgate).
    rewrite bool_decide_eq_false_2 by done.
    unfold DashboardVersionManager.delete_version.
    apply has_dashboard_lookup in Hget as (-> & _ & _).
    rewrite decide_False by done.
    by rewrite (bind_raise _ _ _ _ _ Hver).
Qed.

(** ** What a writing call does to the store *)

Lemma create_effect params s :
  effect (fresh (dom (dashboards s))) s (DashboardService.create params s).2.
Proof.
  unfold DashboardService.create.
  assert (dashboards s !! fresh (dom (dashboards s)) = None) as Hfresh.
  { apply not_elem_of_dom, is_fresh. }
  destruct (CreateParams.user_id params); [|by apply effect_none].
  destruct (DashboardService.any _);
    cbv [mbind M_bind mret M_ret modify set_dashboard_versions
         check_required
         set_dashboards snd DashboardManager.create_domain_dashboard
         DashboardVersionManager.create_version_by_domain_dashboard_vo];
    store_fields.
  - eapply effect_version; cycle -1; [reflexivity|..]; try done.
    intros vo. by rewrite Hfresh.
  - eapply effect_write; cycle -1; [reflexivity|..]; try done.
    intros vo. by rewrite Hfresh.
Qed.

Lemma versioned_effect k s dashboard_vo vo' version_vo :
  dashboards s !! k = Some dashboard_vo →
  Dashboard.dashboard_id vo' = k →
  Dashboard.version vo' = (Dashboard.version dashboard_vo + 1)%Z →
  Dashboard.domain_id vo' = Dashboard.domain_id dashboard_vo →
  DashboardVersion.dashboard_id version_vo = k →
  DashboardVersion.version version_vo = Dashboard.version vo' →
  DashboardVersion.domain_id version_vo = Dashboard.domain_id vo' →
  effect k s
    (mkStore
       (<[k := vo']>
          (<[k := Dashboard.set_version (Dashboard.version dashboard_vo + 1)
                    dashboard_vo]> (dashboards s)))
       (dashboard_versions s ++ [version_vo])).
Proof.
  intros Hk Hid Hv Hd Hsid Hsv Hsd. rewrite insert_insert_eq.
  eapply effect_version; [done| |done..|reflexivity].
  intros vo. rewrite Hk. intros [= <-]. split; [lia|done].
Qed.

Lemma update_effect user_id params s :
  effect (Params.dashboard_id params) s
    (DashboardService.update user_id params s).2.
Proof.
  destruct (get_domain_dashboard_cases (Params.dashboard_id params)
              (Params.domain_id params) None s) as [[vo Hget]|Hget].
  2: { rewrite (update_not_found _ _ _ _ _ Hget). by apply effect_none. }
  destruct (DashboardService.private_of_other vo user_id) eqn:Hgate.
  { rewrite (update_denied _ _ _ _ Hget Hgate). by apply effect_none. }
  rewrite (update_allowed _ _ _ _ Hget Hgate).
  apply has_dashboard_lookup in Hget as (Hl & Hid & Hdom).
  destruct (option_truth _); run_store; rewrite Hid.
  - by eapply versioned_effect.
  - eapply effect_write; [| |reflexivity]; [done|].
    intros d. rewrite Hl. by intros [= <-].
Qed.

Lemma revert_version_effect user_id params s :
  effect (VersionParams.dashboard_id params) s
    (DashboardService.revert_version user_id params s).2.
Proof.
  destruct (get_domain_dashboard_cases (VersionParams.dashboard_id params)
              (VersionParams.domain_id params) None s) as [[vo Hget]|Hget].
  2: { rewrite (revert_version_not_found _ _ _ _ _ Hget).
       by apply effect_none. }
  destruct (DashboardService.private_of_other vo user_id) eqn:Hgate.
  { unfold DashboardService.revert_version.
    rewrite (bind_ok _ _ _ _ _ Hget). rewrite Hgate. by apply effect_none. }
  destruct (get_version_cases (VersionParams.dashboard_id params)
              (VersionParams.version params)
              (VersionParams.domain_id params) None s)
    as [[version_vo Hver]|Hver].
  2: { unfold DashboardService.revert_version.
       rewrite (bind_ok _ _ _ _ _ Hget). rewrite Hgate.
       rewrite (bind_raise _ _ _ _ _ Hver). by apply effect_none. }
  rewrite (revert_version_allowed _ _ _ _ _ Hget Hgate Hver).
  apply has_dashboard_lookup in Hget as (Hl & Hid & Hdom).
  run_store. rewrite Hid. by eapply versioned_effect.
Qed.

Lemma delete_effect user_id params s :
  effect (Params.dashboard_id params) s
    (DashboardService.delete user_id params s).2.
Proof.
  destruct (get_domain_dashboard_cases (Params.dashboard_id params)
              (Params.domain_id params) None s) as [[vo Hget]|Hget].
  2: { unfold DashboardService.delete.
       rewrite (bind_raise _ _ _ _ _ Hget). by apply effect_none. }
  destruct (DashboardService.private_of_other vo user_id) eqn:Hgate.
  { unfold DashboardService.delete.
    rewrite (bind_ok _ _ _ _ _ Hget). rewrite Hgate. by apply effect_none. }
  rewrite (delete_allowed _ _ _ _ Hget Hgate).
  apply has_dashboard_lookup in Hget as (Hl & Hid & Hdom).
  cbv [mbind M_bind DashboardVersionManager.filter_versions gets].
  rewrite delete_versions_guard. run_store.
  rewrite filter_versions_removed, Hid. by apply effect_delete.
Qed.

Lemma delete_version_effect user_id params s :
  effect (VersionParams.dashboard_id params) s
    (DashboardService.delete_version user_id params s).2.
Proof.
  destruct (get_domain_dashboard_cases (VersionParams.dashboard_id params)
              (VersionParams.domain_id params) None s) as [[vo Hget]|Hget].
  2: { unfold DashboardService.delete_version.
       rewrite (bind_raise _ _ _ _ _ Hget). by apply effect_none. }
  destruct (DashboardService.private_of_other vo user_id) eqn:Hgate.
  { unfold DashboardService.delete_version.
    rewrite (bind_ok _ _ _ _ _ Hget). rewrite Hgate. by apply effect_none. }
  rewrite (delete_version_allowed _ _ _ _ Hget Hgate).
  case_bool_decide; [by apply effect_none|].
  unfold DashboardVersionManager.delete_version.
  cbv [mbind M_bind DashboardVersionManager.get_version].
  destruct (dashboards s !! _) as [d|];
    [case_decide; [by apply effect_none|]|];
    (destruct (List.find _ _) as [version_vo|] eqn:E;
     [|by apply effect_none]);
    apply find_some in E as [_ Hvo];
    apply bool_decide_eq_true in Hvo as (Hid & _);
    run_store; by eapply effect_prune.
Qed.

Lemma mutate_effect m s : effect (target m s) s (mutate m s).
Proof.
  destruct m; simpl.
  - apply create_effect.
  - apply update_effect.
  - apply delete_effect.
  - apply delete_version_effect.
  - apply revert_version_effect.
Qed.

(** X9: no writing call alters a snapshot. The snapshots it leaves are
    snapshots that were there, in their order, followed by at most one new
    snapshot; a call that adds a snapshot removes none. *)
Theorem snapshots_kept_dropped_or_added (m : Mutation) (s : Store) :
  ∃ kept new,
    dashboard_versions (mutate m s) = kept ++ new
    ∧ kept `sublist_of` dashboard_versions s
    ∧ length new ≤ 1
    ∧ (new ≠ [] → kept = dashboard_versions s).
Proof.
  destruct (mutate_effect m s)
    as [->|vo' _ _ ->|vo' v _ _ _ _ _ ->|v _ ->| ->]; simpl.
  - exists (dashboard_versions s), []. rewrite app_nil_r.
    split; [done|]. split; [done|]. split; [simpl; lia|done].
  - exists (dashboard_versions s), []. rewrite app_nil_r.
    split; [done|]. split; [done|]. split; [simpl; lia|done].
  - exists (dashboard_versions s), [v].
    split; [done|]. split; [done|]. split; [simpl; lia|done].
  - eexists _, []. rewrite app_nil_r. split; [done|].
    split; [apply sublist_filter; apply _|]. split; [simpl; lia|done].
  - eexists _, []. rewrite app_nil_r. split; [done|].
    split; [apply sublist_filter; apply _|]. split; [simpl; lia|done].
Qed.

(** X10: a writing call touches only the dashboard it addresses: every
    record under another id, and the snapshots of every other dashboard,
    are after the call what they were before. *)
Theorem other_dashboards_untouched (m : Mutation) (s : Store)
    (dashboard_id : string) :
  dashboard_id ≠ target m s →
  dashboards (mutate m s) !! dashboard_id = dashboards s !! dashboard_id
  ∧ filter (λ vo, DashboardVersion.dashboard_id vo = dashboard_id)
      (dashboard_versions (mutate m s))
    = filter (λ vo, DashboardVersion.dashboard_id vo = dashboard_id)
        (dashboard_versions s).
Proof.
  intros Hne.
  destruct (mutate_effect m s)
    as [->|vo' _ _ ->|vo' v _ _ Hv _ _ ->|v Hv ->| ->]; simpl.
  - done.
  - by rewrite lookup_insert_ne.
  - rewrite lookup_insert_ne by done. split; [done|].
    rewrite filter_app, filter_cons_False, filter_nil, app_nil_r by congruence.
    done.
  - split; [done|]. rewrite list_filter_filter.
    apply list_filter_iff. intros vo. split; [tauto|].
    intros Hvo. split; [done|]. intros ->%list_elem_of_singleton. congruence.
  - rewrite lookup_delete_ne by done. split; [done|].
    rewrite list_filter_filter.
    apply list_filter_iff. intros vo. split; [tauto|].
    intros Hvo. split; [done|]. congruence.
Qed.

(** ** Consistency of the stores the service brings about *)

Lemma effect_consistent k s s' :
  effect k s s' → store_consistent s → store_consistent s'.
Proof.
  intros Heff (Hkeyed & Howned & Hdistinct).
  destruct Heff as [->|vo' Hid Hold ->|vo' v Hid Hold Hvid Hvv Hvd ->
                    |v Hv ->| ->].
  - done.
  - split; [|split; [|done]]; simpl.
    + intros k' d. destruct (decide (k = k')) as [<-|Hne].
      * rewrite lookup_insert_eq. by intros [= <-].
      * rewrite lookup_insert_ne by done. apply Hkeyed.
    + intros w Hw. destruct (Howned _ Hw) as (d & Hd & Hle & Hdom).
      destruct (decide (k = DashboardVersion.dashboard_id w)) as [->|Hne].
      * exists vo'. rewrite lookup_insert_eq.
        destruct (Hold _ Hd) as [<- <-]. done.
      * exists d. by rewrite lookup_insert_ne.
  - split; [|split]; simpl.
    + intros k' d. destruct (decide (k = k')) as [<-|Hne].
      * rewrite lookup_insert_eq. by intros [= <-].
      * rewrite lookup_insert_ne by done. apply Hkeyed.
    + intros w [Hw| ->%list_elem_of_singleton]%elem_of_app.
      * destruct (Howned _ Hw) as (d & Hd & Hle & Hdom).
        destruct (decide (k = DashboardVersion.dashboard_id w)) as [->|Hne].
        -- exists vo'. rewrite lookup_insert_eq.
           destruct (Hold _ Hd) as [Hlt <-]. split; [done|]. split; [lia|done].
        -- exists d. by rewrite lookup_insert_ne.
      * exists vo'. rewrite Hvid, lookup_insert_eq.
        split; [done|]. split; [lia|done].
    + rewrite fmap_app. apply NoDup_app. split; [done|].
      split; [|apply NoDup_singleton].
      intros key Hkey [= ->]%list_elem_of_singleton.
      apply list_elem_of_fmap in Hkey as (w & Hkw & Hw).
      injection Hkw as Hwid Hwv.
      destruct (Howned _ Hw) as (d & Hd & Hle & _).
      rewrite <- Hwid, Hvid in Hd. destruct (Hold _ Hd) as [Hlt _]. lia.
  - split; [done|]. split; simpl.
    + intros w [_ Hw]%list_elem_of_filter. by apply Howned.
    + apply (sublist_NoDup _ (snapshot_key <$> dashboard_versions s));
        [done|].
      apply fmap_sublist, sublist_filter; apply _.
  - split; [|split]; simpl.
    + intros k' d [_ Hd]%lookup_delete_Some. by apply Hkeyed.
    + intros w [Hne Hw]%list_elem_of_filter.
      destruct (Howned _ Hw) as (d & Hd & Hle & Hdom).
      exists d. by rewrite lookup_delete_ne.
    + apply (sublist_NoDup _ (snapshot_key <$> dashboard_versions s));
        [done|].
      apply fmap_sublist, sublist_filter; apply _.
Qed.

Lemma mutate_consistent m s :
  store_consistent s → store_consistent (mutate m s).
Proof. apply effect_consistent with (k := target m s), mutate_effect. Qed.

Lemma empty_consistent : store_consistent (mkStore ∅ []).
Proof.
  split; [|split]; simpl.
  - by intros k d.
  - by intros w Hw%elem_of_nil.
  - apply NoDup_nil_2.
Qed.

(** X11: the empty store is consistent and every writing call, by any
    caller with any [params], keeps a store consistent; so in every store
    the service brings about records are stored under their own id, every
    snapshot belongs to a stored record of its domain at a version not
    above the record's, and no dashboard has two snapshots at one
    version. *)
Theorem reachable_store_consistent :
  (∀ m s, store_consistent s → store_consistent (mutate m s))
  ∧ (∀ s, reachable s → store_consistent s).
Proof.
  split; [apply mutate_consistent|].
  induction 1 as [|p s _ IH|u p s _ IH|u p s _ IH|u p s _ IH|u p s _ IH].
  - apply empty_consistent.
  - apply (mutate_consistent (MutCreate p)), IH.
  - apply (mutate_consistent (MutUpdate u p)), IH.
  - apply (mutate_consistent (MutDelete u p)), IH.
  - apply (mutate_consistent (MutDeleteVersion u p)), IH.
  - apply (mutate_consistent (MutRevertVersion u p)), IH.
Qed.

(** ** Deleting a version that is not the current one *)

Lemma NoDup_fmap_eq {A B} (f : A → B) (l : list A) x y :
  NoDup (f <$> l) → x ∈ l → y ∈ l → f x = f y → x = y.
Proof.
  induction l as [|a l IH]; [by intros _ ?%elem_of_nil|].
  rewrite fmap_cons, NoDup_cons. intros [Ha Hl].
  intros [->|Hx]%elem_of_cons [->|Hy]%elem_of_cons Hf; [done| | |by apply IH].
  - exfalso. apply Ha. rewrite Hf. by apply list_elem_of_fmap_2.
  - exfalso. apply Ha. rewrite <- Hf. by apply list_elem_of_fmap_2.
Qed.

Lemma find_filter_implied {A} (p : A → bool) (Q : A → Prop)
    `{!∀ x, Decision (Q x)} (l : list A) :
  (∀ x, x ∈ l → p x = true → Q x) →
  List.find p (filter Q l) = List.find p l.
Proof.
  induction l as [|a l IH]; intros Himp; [done|].
  rewrite filter_cons. simpl.
  destruct (p a) eqn:Hp.
  - rewrite decide_True by (apply Himp; [by left|done]). simpl.
    by rewrite Hp.
  - destruct (decide (Q a)); simpl; rewrite ?Hp;
      apply IH; intros x Hx; apply Himp; by right.
Qed.

Lemma get_version_found s dashboard_id version domain_id only version_vo :
  DashboardVersionManager.get_version dashboard_id version domain_id only s
  = (Ok version_vo, s) →
  version_vo ∈ dashboard_versions s
  ∧ DashboardVersion.dashboard_id version_vo = dashboard_id
  ∧ DashboardVersion.version version_vo = version
  ∧ DashboardVersion.domain_id version_vo = domain_id.
Proof.
  unfold DashboardVersionManager.get_version.
  destruct (List.find _ _) as [vo|] eqn:Hfind; [|done]. intros [= ->].
  apply find_some in Hfind as [Hin Hvo]. apply list_elem_of_In in Hin.
  by apply bool_decide_eq_true in Hvo as (? & ? & ?).
Qed.

(** X12: in a consistent store, for a caller the gate lets through,
    [delete_version] of an existing snapshot below the current version
    returns, leaves the records as they are and removes that snapshot and
    no other: afterwards the version is not found any more, and every
    other version of every dashboard is looked up as before. *)
Theorem delete_version_removes_one user_id params s dashboard_vo
    version_vo :
  store_consistent s →
  has_dashboard s (VersionParams.dashboard_id params)
    (VersionParams.domain_id params) dashboard_vo →
  DashboardService.private_of_other dashboard_vo user_id = false →
  VersionParams.version params ≠ Dashboard.version dashboard_vo →
  DashboardVersionManager.get_version (VersionParams.dashboard_id params)
    (VersionParams.version params) (VersionParams.domain_id params) None s
  = (Ok version_vo, s) →
  ∃ s',
    DashboardService.delete_version user_id params s = (Ok tt, s')
    ∧ dashboards s' = dashboards s
    ∧ (∀ vo, vo ∈ dashboard_versions s' ↔
             vo ∈ dashboard_versions s ∧ vo ≠ version_vo)
    ∧ (∀ domain_id only,
         DashboardVersionManager.get_version
           (VersionParams.dashboard_id params)
           (VersionParams.version params) domain_id only s'
         = (Raise ERROR_NOT_FOUND, s'))
    ∧ (∀ dashboard_id version domain_id only,
         (dashboard_id, version)
         ≠ (VersionParams.dashboard_id params, VersionParams.version params) →
         (DashboardVersionManager.get_version dashboard_id version domain_id
            only s').1
         = (DashboardVersionManager.get_version dashboard_id version
              domain_id only s).1).
Proof.
  intros (_ & _ & Hdistinct) Hget Hgate Hv Hver.
  rewrite (delete_version_allowed _ _ _ _ Hget Hgate).
  rewrite bool_decide_eq_false_2 by done.
  unfold DashboardVersionManager.delete_version.
  apply has_dashboard_lookup in Hget as (-> & _ & _).
  rewrite decide_False by done. rewrite (bind_ok _ _ _ _ _ Hver).
  apply get_version_found in Hver as (Hin & Hid & Hvv & Hdom).
  eexists. split; [reflexivity|]. simpl. split; [done|]. split; [|split].
  - intros vo. rewrite list_elem_of_filter, list_elem_of_singleton. tauto.
  - intros domain_id only. unfold DashboardVersionManager.get_version.
    simpl. destruct (List.find _ _) as [vo|] eqn:Hfind; [|done]. exfalso.
    apply find_some in Hfind as [Hvo Hkey].
    apply list_elem_of_In, list_elem_of_filter in Hvo as [Hne Hvo].
    apply bool_decide_eq_true in Hkey as (Hvid & Hvver & _).
    apply Hne, list_elem_of_singleton.
    apply (NoDup_fmap_eq snapshot_key (dashboard_versions s)); [done..|].
    unfold snapshot_key. congruence.
  - intros dashboard_id version domain_id only Hother.
    unfold DashboardVersionManager.get_version. simpl.
    rewrite find_filter_implied; [by destruct (List.find _ _)|].
    intros vo _ Hkey ->%list_elem_of_singleton. apply Hother.
    apply bool_decide_eq_true in Hkey as (<- & <- & _). congruence.
Qed.

(** * The wire form of a snapshot *)

Lemma info_lookup_latest `{CreatedAt} `{MessageType} vo minimal
    latest_version :
  DashboardVersionInfo_info vo minimal latest_version !! "latest"
  = if int_truth latest_version
    then Some (VNum (if bool_decide
                         (latest_version = Some (DashboardVersion.version vo))
                     then 1 else 0))
    else None.
Proof.
  unfold DashboardVersionInfo_info.
  destruct (int_truth latest_version), minimal; simpl;
    try case_bool_decide;
    repeat (rewrite lookup_union_r by done);
    try (by rewrite ?lookup_union_l', ?lookup_insert_eq);
    done.
Qed.

Lemma info_dom `{CreatedAt} `{MessageType} vo minimal latest_version :
  dom (DashboardVersionInfo_info vo minimal latest_version)
  = identity_keys
    ∪ (if int_truth latest_version then {[ "latest" ]} else ∅)
    ∪ (if minimal then ∅ else content_keys).
Proof.
  unfold DashboardVersionInfo_info, identity_keys, content_keys.
  destruct (int_truth latest_version), minimal; simpl;
    try case_bool_decide;
    rewrite ?dom_union_L, ?dom_insert_L, ?dom_singleton_L, ?dom_empty_L;
    set_solver.
Qed.

Lemma info_lookup_identity `{CreatedAt} `{MessageType} vo minimal
    latest_version :
  DashboardVersionInfo_info vo minimal latest_version !! "dashboard_id"
  = Some (VStr (DashboardVersion.dashboard_id vo))
  ∧ DashboardVersionInfo_info vo minimal latest_version !! "version"
    = Some (VNum (DashboardVersion.version vo))
  ∧ DashboardVersionInfo_info vo minimal latest_version !! "domain_id"
    = Some (VStr (DashboardVersion.domain_id vo))
  ∧ DashboardVersionInfo_info vo minimal latest_version !! "created_at"
    = Some (created_at_iso8601 vo).
Proof.
  unfold DashboardVersionInfo_info.
  destruct (int_truth latest_version), minimal; simpl;
    try case_bool_decide;
    repeat split; repeat (rewrite lookup_union_r by done); done.
Qed.

Lemma info_lookup_content `{CreatedAt} `{MessageType} vo latest_version :
  DashboardVersionInfo_info vo false latest_version !! "layouts"
  = Some (if list_truth (DashboardVersion.layouts vo)
          then change_list_value_type (DashboardVersion.layouts vo)
          else VNull)
  ∧ DashboardVersionInfo_info vo false latest_version !! "variables"
    = Some (change_struct_type (DashboardVersion.variables vo))
  ∧ DashboardVersionInfo_info vo false latest_version !! "settings"
    = Some (change_struct_type (DashboardVersion.settings vo))
  ∧ DashboardVersionInfo_info vo false latest_version !! "variables_schema"
    = Some (change_struct_type (DashboardVersion.variables_schema vo)).
Proof.
  unfold DashboardVersionInfo_info. simpl.
  repeat split; by apply lookup_union_Some_l.
Qed.

(** X13: the info carries a [latest] flag exactly when a non-zero
    [latest_version] is passed, and the flag is true exactly on the snapshot
    at that version; without [latest_version], and with [latest_version]
    0, no snapshot is flagged, whatever its version. *)
Theorem info_latest_flag `{CreatedAt} `{MessageType}
    (vo : DashboardVersion.t) (minimal : bool) (latest_version : option Z) :
  (latest_version = None ∨ latest_version = Some 0%Z →
   DashboardVersionInfo_info vo minimal latest_version !! "latest" = None)
  ∧ (∀ n, latest_version = Some n → n ≠ 0%Z →
       DashboardVersionInfo_info vo minimal latest_version !! "latest"
       = Some (VNum (if decide (n = DashboardVersion.version vo)
                     then 1 else 0))).
Proof.
  rewrite info_lookup_latest. split.
  - by intros [-> | ->].
  - intros n -> Hn. simpl.
    rewrite (proj2 (Z.eqb_neq n 0)) by done. simpl.
    case_bool_decide as Hv; case_decide; congruence.
Qed.

(** X14: the message is what the constructor makes of [info]. A minimal
    [info] has the keys the version model lists as its minimal fields (and
    [latest] when flagged) and nothing of the content; a full one has the
    four content keys as well, each with what its converter makes of the
    snapshot's field, except that empty layouts are not converted and go
    as null. *)
Theorem info_fields `{CreatedAt} `{MessageType} (vo : DashboardVersion.t)
    (latest_version : option Z) :
  (∀ minimal,
     DashboardVersionInfo vo minimal latest_version
     = dashboard_pb2_DashboardVersionInfo
         (DashboardVersionInfo_info vo minimal latest_version))
  ∧ dom (DashboardVersionInfo_info vo true latest_version)
    = list_to_set minimal_fields
      ∪ (if int_truth latest_version then {[ "latest" ]} else ∅)
  ∧ dom (DashboardVersionInfo_info vo false latest_version)
    = dom (DashboardVersionInfo_info vo true latest_version) ∪ content_keys
  ∧ DashboardVersionInfo_info vo false latest_version !! "layouts"
    = Some (match DashboardVersion.layouts vo with
            | [] => VNull
            | l => change_list_value_type l
            end)
  ∧ DashboardVersionInfo_info vo false latest_version !! "variables"
    = Some (change_struct_type (DashboardVersion.variables vo))
  ∧ DashboardVersionInfo_info vo false latest_version !! "settings"
    = Some (change_struct_type (DashboardVersion.settings vo))
  ∧ DashboardVersionInfo_info vo false latest_version !! "variables_schema"
    = Some (change_struct_type (DashboardVersion.variables_schema vo))
  ∧ (∀ minimal,
       DashboardVersionInfo_info vo minimal latest_version !! "dashboard_id"
       = Some (VStr (DashboardVersion.dashboard_id vo))
       ∧ DashboardVersionInfo_info vo minimal latest_version !! "version"
         = Some (VNum (DashboardVersion.version vo))
       ∧ DashboardVersionInfo_info vo minimal latest_version !! "domain_id"
         = Some (VStr (DashboardVersion.domain_id vo))).
Proof.
  rewrite !info_dom.
  destruct (info_lookup_content vo latest_version) as (Hl & Hv & Hs & Hvs).
  split; [done|].
  split; [|split; [|split; [|split; [|split; [|split]]]]]; try done.
  - unfold identity_keys, minimal_fields. simpl. set_solver.
  - set_solver.
  - rewrite Hl. by destruct (DashboardVersion.layouts vo).
  - intros minimal.
    destruct (info_lookup_identity vo minimal latest_version)
      as (? & ? & ? & _). done.
Qed.

(** X16: among the snapshots of one dashboard in a consistent store, at
    most one is flagged as the latest, whatever [latest_version] the infos
    are built with. *)
Theorem one_latest_per_dashboard `{CreatedAt} `{MessageType} (s : Store)
    (vo1 vo2 : DashboardVersion.t) (minimal1 minimal2 : bool)
    (latest_version : option Z) :
  store_consistent s →
  vo1 ∈ dashboard_versions s →
  vo2 ∈ dashboard_versions s →
  DashboardVersion.dashboard_id vo1 = DashboardVersion.dashboard_id vo2 →
  DashboardVersionInfo_info vo1 minimal1 latest_version !! "latest"
  = Some (VNum 1) →
  DashboardVersionInfo_info vo2 minimal2 latest_version !! "latest"
  = Some (VNum 1) →
  vo1 = vo2.
Proof.
  intros (_ & _ & Hnodup) H1 H2 Hid.
  rewrite !info_lookup_latest.
  destruct (int_truth latest_version); [|done].
  do 2 case_bool_decide; try done. intros _ _.
  apply (NoDup_fmap_eq snapshot_key (dashboard_versions s)); try done.
  unfold snapshot_key. f_equal; [done|congruence].
Qed.

(** * The two managers and the rollbacks they register *)










(** * The further properties on the sample stores *)

Lemma built_consistent : store_consistent Sample.built.
Proof.
  apply (mutate_consistent (MutUpdate (Some "u2") (Sample.new_layouts "0"))).
  apply (mutate_consistent (MutCreate Sample.created)).
  apply empty_consistent.
Qed.

Lemma built_has_dash : has_dashboard Sample.built "0" "domain-1"
                         Sample.built_dash.
Proof. by vm_compute. Qed.

Lemma update_again_changes_nothing_witness :
  ∃ vo s',
    DashboardService.update (Some "u1") (Sample.new_layouts "dash-1")
      Sample.store = (Ok vo, s')
    ∧ DashboardService.update (Some "u1") (Sample.new_layouts "dash-1") s'
      = (Ok vo, s').
Proof.
  eexists _, _. split.
  - vm_compute. reflexivity.
  - apply (update_again_changes_nothing (Some "u1")
             (Sample.new_layouts "dash-1") Sample.store).
    vm_compute. reflexivity.
Defined.

Lemma missing_dashboard_not_found_witness :
  DashboardService.update (Some "u1") (Sample.params "dash-9") Sample.store
  = (Raise ERROR_NOT_FOUND, Sample.store)
  ∧ DashboardService.revert_version (Some "u1") (Sample.vparams "dash-9" 1)
      Sample.store
    = (Raise ERROR_NOT_FOUND, Sample.store).
Proof.
  destruct (missing_dashboard_not_found (H := Sample.document_store)
              (Some "u1") (Sample.params "dash-9")
              (Sample.vparams "dash-9" 1) Sample.store)
    as (Hupdate & _ & _ & _ & Hrevert & _).
  - intros vo. by vm_compute.
  - intros vo. by vm_compute.
  - split; [exact Hupdate|exact Hrevert].
Defined.

Lemma missing_version_not_found_witness :
  DashboardService.revert_version (Some "u1") (Sample.vparams "dash-1" 7)
    Sample.store = (Raise ERROR_NOT_FOUND, Sample.store)
  ∧ DashboardService.get_version (Some "u1") (Sample.vparams "dash-1" 7)
      Sample.store = (Raise ERROR_NOT_FOUND, Sample.store)
  ∧ DashboardService.delete_version (Some "u1") (Sample.vparams "dash-1" 7)
      Sample.store = (Raise ERROR_NOT_FOUND, Sample.store).
Proof.
  destruct (missing_version_not_found (Some "u1")
              (Sample.vparams "dash-1" 7) Sample.store Sample.dash1)
    as (Hrevert & Hget & Hdelete).
  - exact sample_has_dash1.
  - reflexivity.
  - intros vo Hvo. apply list_elem_of_In in Hvo. vm_compute in Hvo.
    by destruct Hvo as [<-|[<-|[<-|[]]]].
  - split; [exact Hrevert|]. split; [exact Hget|].
    apply Hdelete. discriminate.
Defined.

Lemma other_dashboards_untouched_witness :
  dashboards
    (mutate (MutUpdate (Some "u1") (Sample.new_layouts "dash-1"))
       Sample.store) !! "dash-2" = Some Sample.dash2
  ∧ filter (λ vo, DashboardVersion.dashboard_id vo = "dash-2")
      (dashboard_versions
         (mutate (MutDelete (Some "u1") (Sample.params "dash-1"))
            Sample.store))
    = [Sample.dash2_v1].
Proof.
  split.
  - by rewrite (proj1 (other_dashboards_untouched
                         (MutUpdate (Some "u1") (Sample.new_layouts "dash-1"))
                         Sample.store "dash-2" ltac:(discriminate))).
  - by rewrite (proj2 (other_dashboards_untouched
                         (MutDelete (Some "u1") (Sample.params "dash-1"))
                         Sample.store "dash-2" ltac:(discriminate))).
Defined.

Lemma delete_version_removes_one_witness :
  ∃ s',
    DashboardService.delete_version (Some "u2") (Sample.vparams "0" 0)
      Sample.built = (Ok tt, s')
    ∧ dashboards s' = dashboards Sample.built
    ∧ (∀ vo, vo ∈ dashboard_versions s' ↔
             vo ∈ dashboard_versions Sample.built ∧ vo ≠ built_v0)
    ∧ (∀ domain_id only,
         DashboardVersionManager.get_version "0" 0 domain_id only s'
         = (Raise ERROR_NOT_FOUND, s')).
Proof.
  destruct (delete_version_removes_one (Some "u2") (Sample.vparams "0" 0)
              Sample.built Sample.built_dash built_v0)
    as (s' & Hrun & Hds & Hvs & Hgone & _).
  - exact built_consistent.
  - exact built_has_dash.
  - reflexivity.
  - discriminate.
  - by vm_compute.
  - by exists s'.
Defined.

Lemma one_latest_per_dashboard_witness :
  DashboardVersionInfo_info (H := sample_created_at)
    (H0 := sample_message_type) Sample.built_v1 true (Some 1%Z)
  !! "latest" = Some (VNum 1)
  ∧ DashboardVersionInfo_info (H := sample_created_at)
      (H0 := sample_message_type) built_v0 false (Some 1%Z)
    !! "latest" ≠ Some (VNum 1).
Proof.
  split; [by vm_compute|]. intros Hlatest.
  assert (built_v0 = Sample.built_v1) as Heq; [|discriminate Heq].
  apply (one_latest_per_dashboard (H := sample_created_at)
           (H0 := sample_message_type) Sample.built
           built_v0 Sample.built_v1 false true (Some 1%Z)).
  - exact built_consistent.
  - vm_compute. by left.
  - vm_compute. by right; left.
  - reflexivity.
  - exact Hlatest.
  - by vm_compute.
Defined.
